(** * Source-anchored region extractor

    A shallow embedding of [extract_class_block] and of the record built by
    [main] in [scripts/03_build_cases_from_repo.py], with the Python
    built-ins it relies on ([str.splitlines], [str.split], [str.join], list
    indexing and slicing, [range], and the header regular expression). *)

From Stdlib Require Import ZArith NArith List Bool Lia String Ascii.
From Stdlib.Strings Require Byte.
Import ListNotations.
Open Scope Z_scope.

Set Implicit Arguments.

(** ** Python values *)

(** A Python [str] is a sequence of Unicode code points. *)
Definition char := N.
Definition str := list char.

(** A [str] literal, from its ASCII (or Latin-1) spelling. *)
Definition py (s : string) : str :=
  List.map N_of_ascii (list_ascii_of_string s).
Arguments py s%_string.

Definition LF : char := 10%N.
Definition CR : char := 13%N.
Definition DOT : char := 46%N.
Definition LBRACE : char := 123%N.
Definition RBRACE : char := 125%N.

(** Outcome of a Python expression: a value, or a raised exception. *)
Inductive exn := IndexError.

Inductive result (A : Type) : Type :=
| Ok (a : A)
| Raise (e : exn).
Arguments Ok {A} a.
Arguments Raise {A} e.

Definition bind {A B} (m : result A) (k : A -> result B) : result B :=
  match m with
  | Ok a => k a
  | Raise e => Raise e
  end.

Notation "x <- m ;; k" := (bind m (fun x => k))
  (at level 61, m at next level, right associativity).

(** [len(l)] *)
Definition len {A} (l : list A) : Z := Z.of_nat (List.length l).

(** [l[i]]: negative indices count from the end, anything outside
    [-len(l) <= i < len(l)] raises [IndexError]. *)
Definition py_getitem {A} (l : list A) (i : Z) : result A :=
  let j := if i <? 0 then i + len l else i in
  if j <? 0 then Raise IndexError
  else match nth_error l (Z.to_nat j) with
       | Some x => Ok x
       | None => Raise IndexError
       end.

(** Index normalisation of a slice bound (step 1). *)
Definition clamp_bound (n i : Z) : Z :=
  if i <? 0 then Z.max 0 (i + n) else Z.min i n.

(** The elements at positions [a <= k < b], for bounds already clamped. *)
Definition sublist {A} (a b : nat) (l : list A) : list A :=
  firstn (b - a) (skipn a l).

(** [l[lo:hi]]; a missing bound is [None]. *)
Definition py_slice {A} (l : list A) (lo hi : option Z) : list A :=
  let n := len l in
  let a := match lo with None => 0 | Some i => clamp_bound n i end in
  let b := match hi with None => n | Some j => clamp_bound n j end in
  sublist (Z.to_nat a) (Z.to_nat b) l.

(** [range(a, b)] as the list of the integers it yields. *)
Definition py_range (a b : Z) : list Z :=
  List.map (fun k => a + Z.of_nat k) (seq 0 (Z.to_nat (b - a))).

(** [sep.join(parts)] *)
Fixpoint join (sep : str) (parts : list str) : str :=
  match parts with
  | [] => []
  | [p] => p
  | p :: rest => p ++ sep ++ join sep rest
  end.

(** [s.split(sep)] for a one-character separator: never empty. *)
Fixpoint split_char (sep : char) (s : str) : list str :=
  match s with
  | [] => [[]]
  | c :: rest =>
      if N.eqb c sep then [] :: split_char sep rest
      else match split_char sep rest with
           | [] => [[c]]
           | p :: ps => (c :: p) :: ps
           end
  end.

(** The line boundaries of [str.splitlines]: LF, VT, FF, CR, FS, GS, RS,
    NEL, LINE SEPARATOR and PARAGRAPH SEPARATOR. *)
Definition is_linebreak (c : char) : bool :=
  existsb (N.eqb c) [10; 11; 12; 13; 28; 29; 30; 133; 8232; 8233]%N.

(** [s.splitlines()]: terminators are dropped, CR LF is one terminator, and
    a final terminator opens no further line. *)
Fixpoint splitlines (s : str) : list str :=
  match s with
  | [] => []
  | c :: rest =>
      if is_linebreak c then
        [] :: match rest with
              | c' :: rest' =>
                  if N.eqb c CR && N.eqb c' LF then splitlines rest'
                  else splitlines rest
              | [] => []
              end
      else match splitlines rest with
           | [] => [[c]]
           | l :: ls => (c :: l) :: ls
           end
  end.

(** ** The header pattern

    [re.compile(rf"\b(class|interface|enum)\s+{re.escape(simple_name)}\b")]
    on a [str] pattern: [\w] and [\s] are the Unicode classes.  On ASCII
    they are fixed; beyond ASCII they are given by the interpreter's Unicode
    database ([str.isalnum], [str.isspace]), taken here as tables. *)

Definition ascii_alnum (c : char) : bool :=
  ((48 <=? c) && (c <=? 57) || (65 <=? c) && (c <=? 90)
   || (97 <=? c) && (c <=? 122))%N.

Definition ascii_space (c : char) : bool :=
  ((9 <=? c) && (c <=? 13) || (28 <=? c) && (c <=? 32))%N.

Definition keywords : list str := [py "class"; py "interface"; py "enum"].

(** [s] minus the prefix [p], when [s] starts with [p]. *)
Fixpoint strip_prefix (p s : str) : option str :=
  match p, s with
  | [], _ => Some s
  | x :: p', y :: s' => if N.eqb x y then strip_prefix p' s' else None
  | _ :: _, [] => None
  end.

(** The two tables restricted to Latin-1 (nothing above U+00FF), enough for
    the scenarios below, whose inputs are ASCII. *)
Definition latin1_alnum (c : char) : bool :=
  (existsb (N.eqb c) [170; 178; 179; 181; 185; 186; 188; 189; 190]
   || (192 <=? c) && (c <=? 255) && negb (N.eqb c 215) && negb (N.eqb c 247))%N.

Definition latin1_space (c : char) : bool :=
  existsb (N.eqb c) [133; 160]%N.

(** Closed facts about concrete inputs, by evaluation. *)
Ltac by_computation :=
  vm_compute; repeat split; solve [reflexivity | discriminate].

Section Extractor.

Set Default Proof Using "Type".

(** [str.isalnum] and [str.isspace] on the code points above 127. *)
Variable uni_alnum : char -> bool.
Variable uni_space : char -> bool.

(** [\w] *)
Definition is_word (c : char) : bool :=
  if (c <? 128)%N then ascii_alnum c || N.eqb c 95 else uni_alnum c.

(** [\s] *)
Definition is_space (c : char) : bool :=
  if (c <? 128)%N then ascii_space c else uni_space c.

Definition is_word_opt (c : option char) : bool :=
  match c with
  | Some c => is_word c
  | None => false
  end.

(** [\b] between the character before ([None] at the start of the line) and
    the character after ([None] at its end). *)
Definition word_boundary (before after : option char) : bool :=
  xorb (is_word_opt before) (is_word_opt after).

(** [NAME\b], entered just after the character [before]. *)
Definition name_boundary (name : str) (before : char) (s : str) : bool :=
  match strip_prefix name s with
  | Some rest => word_boundary (Some (last name before)) (hd_error rest)
  | None => false
  end.

(** [\s+NAME\b]: every split of the run of white space is tried. *)
Fixpoint spaces_name (name : str) (s : str) : bool :=
  match s with
  | c :: rest =>
      is_space c && (name_boundary name c rest || spaces_name name rest)
  | [] => false
  end.

(** The whole pattern, anchored at the current position. *)
Definition match_here (name : str) (before : option char) (s : str) : bool :=
  word_boundary before (hd_error s) &&
  existsb (fun kw => match strip_prefix kw s with
                     | Some rest => spaces_name name rest
                     | None => false
                     end) keywords.

Fixpoint search_from (name : str) (before : option char) (s : str) : bool :=
  match_here name before s ||
  match s with
  | c :: rest => search_from name (Some c) rest
  | [] => false
  end.

(** [header_pat.search(line)] as a truth value. *)
Definition header_pat_search (name line : str) : bool :=
  search_from name None line.

(** ** [extract_class_block] *)

(** The loop over [search_range]: the first index of the range whose line
    matches, [None] when the range is exhausted. *)
Fixpoint search_window (name : str) (lines : list str) (rng : list Z)
  : result (option Z) :=
  match rng with
  | [] => Ok None
  | i :: rng' =>
      line <- py_getitem lines i ;;
      if header_pat_search name line then Ok (Some i)
      else search_window name lines rng'
  end.

(** The loop over [enumerate(lines)], [i] being the index of the head. *)
Fixpoint scan_file (name : str) (lines : list str) (i : Z) : option Z :=
  match lines with
  | [] => None
  | line :: rest =>
      if header_pat_search name line then Some i
      else scan_file name rest (i + 1)
  end.

(** The header search: local window first, whole file only if the window
    gave nothing. *)
Definition find_header (name : str) (lines : list str) (start_idx : Z)
  : result (option Z) :=
  let n := len lines in
  header_idx <- search_window name lines
                  (py_range (Z.max 0 (start_idx - 5)) (Z.min n (start_idx + 10))) ;;
  match header_idx with
  | Some h => Ok (Some h)
  | None => Ok (scan_file name lines 0)
  end.

(** State of the brace scan after a line: [depth], [opened], and whether the
    inner loop left through [break] (that is, [end_idx] was set). *)
Record scan_state := ScanState {
  depth : Z;
  opened : bool;
  closed : bool
}.

(** The loop [for ch in line]. *)
Fixpoint scan_line (line : str) (d : Z) (o : bool) : scan_state :=
  match line with
  | [] => ScanState d o false
  | ch :: rest =>
      if N.eqb ch LBRACE then scan_line rest (d + 1) true
      else if N.eqb ch RBRACE then
        let d' := d - 1 in
        if o && (d' =? 0) then ScanState d' o true
        else scan_line rest d' o
      else scan_line rest d o
  end.

(** The loop [for rel_line_idx in range(header_idx, n)]. *)
Fixpoint match_braces (lines : list str) (rng : list Z) (d : Z) (o : bool)
  : result (option Z) :=
  match rng with
  | [] => Ok None
  | i :: rng' =>
      line <- py_getitem lines i ;;
      let st := scan_line line d o in
      if closed st then Ok (Some i)
      else match_braces lines rng' (depth st) (opened st)
  end.

Definition newline : str := [LF].

Definition extract_class_block (text : str) (start_line : Z) (class_name : str)
    (loc_limit : Z) : result str :=
  let lines := splitlines text in
  let n := len lines in
  if (start_line <? 1) || (start_line >? n) then
    Ok (join newline (py_slice lines None (Some loc_limit)))
  else
    let start_idx := start_line - 1 in
    simple_name <- py_getitem (split_char DOT class_name) (-1) ;;
    header_idx <- find_header simple_name lines start_idx ;;
    match header_idx with
    | None =>
        let lo := Z.max 0 (start_idx - 5) in
        let hi := Z.min n (lo + loc_limit) in
        Ok (join newline (py_slice lines (Some lo) (Some hi)))
    | Some header_idx =>
        end_idx <- match_braces lines (py_range header_idx n) 0 false ;;
        match end_idx with
        | None =>
            let lo := Z.max 0 header_idx in
            let hi := Z.min n (lo + loc_limit) in
            Ok (join newline (py_slice lines (Some lo) (Some hi)))
        | Some end_idx =>
            let lo := Z.max 0 header_idx in
            let hi := end_idx + 1 in
            let excerpt_lines := py_slice lines (Some lo) (Some hi) in
            let excerpt_lines :=
              if len excerpt_lines >? loc_limit
              then py_slice excerpt_lines None (Some loc_limit)
              else excerpt_lines in
            Ok (join newline excerpt_lines)
        end
    end.

(** Which [return] of [extract_class_block] is reached: line out of range
    (A), no header anywhere (B), header without a closing brace (C), header
    and closing brace (D). *)
Inductive state := StateA | StateB | StateC | StateD.

Definition terminal_state (text : str) (start_line : Z) (class_name : str)
  : result state :=
  let lines := splitlines text in
  let n := len lines in
  if (start_line <? 1) || (start_line >? n) then Ok StateA
  else
    simple_name <- py_getitem (split_char DOT class_name) (-1) ;;
    header_idx <- find_header simple_name lines (start_line - 1) ;;
    match header_idx with
    | None => Ok StateB
    | Some header_idx =>
        end_idx <- match_braces lines (py_range header_idx n) 0 false ;;
        match end_idx with
        | None => Ok StateC
        | Some _ => Ok StateD
        end
    end.

(** ** The record written by [main] *)

(** [json.loads], [None] when it raises, and the empty dictionary [{}]. *)
Variable json : Type.
Variable json_loads : str -> option json.
Variable empty_dict : json.

(** The columns of a row of [smells.csv] that [main] reads. *)
Record row := Row {
  r_case_id : str;
  r_project : str;
  r_package : str;
  r_class_name : str;
  r_outer_class : str;
  r_smell_type : str;
  r_detector_reason : str;
  r_metrics : option str
}.

Record case := Case {
  case_id : str;
  project : str;
  file_path : str;
  package : str;
  class_name : str;
  smell_type : str;
  detector_reason : str;
  metrics : json;
  code_excerpt : str;
  excerpt_strategy : str
}.

(** The body of the loop of [main] once the line number is parsed and the
    file is found and read. *)
Definition build_case (r : row) (java_path code : str) (start_line loc_limit : Z)
  : result case :=
  excerpt <- extract_class_block code start_line (r_class_name r) loc_limit ;;
  let metrics :=
    match json_loads (match r_metrics r with Some m => m | None => py "{}" end) with
    | Some m => m
    | None => empty_dict
    end in
  Ok (Case (r_case_id r) (r_project r) java_path (r_package r)
           (r_class_name r) (r_smell_type r) (r_detector_reason r)
           metrics excerpt (py "line_based_class_block")).

(** ** Notions used to state the properties *)

(** The simple name: the last dot-separated segment. *)
Definition simple_name (class_name : str) : str :=
  last (split_char DOT class_name) [].

(** Line [k] (0-based) exists and matches the header pattern. *)
Definition line_matches (name : str) (lines : list str) (k : Z) : bool :=
  (0 <=? k) &&
  match nth_error lines (Z.to_nat k) with
  | Some line => header_pat_search name line
  | None => false
  end.

(** The bounds of the local window scanned first. *)
Definition window_lo (start_idx : Z) : Z := Z.max 0 (start_idx - 5).
Definition window_hi (n start_idx : Z) : Z := Z.min n (start_idx + 10).

(** [k] is the first index of [[a, b)] at which [P] holds. *)
Definition first_in (P : Z -> bool) (a b k : Z) : Prop :=
  a <= k < b /\ P k = true /\ forall j, a <= j < k -> P j = false.

(** The pattern as a statement about the line: it splits into a keyword
    standing at a word boundary, a non-empty run of white space, the name,
    and a word boundary right after the name. *)
Definition header_occurrence (name line : str) : Prop :=
  exists pre kw ws post,
    line = pre ++ kw ++ ws ++ name ++ post /\
    In kw keywords /\
    ws <> [] /\ forallb is_space ws = true /\
    word_boundary (hd_error (rev pre)) (hd_error kw) = true /\
    word_boundary (hd_error (rev (ws ++ name))) (hd_error post) = true.

(** The character just before the current position, given what was read
    ([before] is the character preceding [read], if any). *)
Definition last_read (before : option char) (read : str) : option char :=
  match rev read with
  | [] => before
  | c :: _ => Some c
  end.

(** The brace matcher as the specification words it: one stream of
    characters from the header line on, each tagged with its line index. *)
Definition chars_from (lines : list str) (h : Z) : list (Z * char) :=
  flat_map (fun i => match nth_error lines (Z.to_nat i) with
                     | Some line => List.map (pair i) line
                     | None => []
                     end)
           (py_range h (len lines)).

Definition brace_step (st : Z * bool) (c : char) : Z * bool :=
  if N.eqb c LBRACE then (fst st + 1, true)
  else if N.eqb c RBRACE then (fst st - 1, snd st)
  else st.

(** [depth] and [opened] after all of [cs], without any early exit. *)
Definition run_from (st : Z * bool) (cs : list char) : Z * bool :=
  fold_left brace_step cs st.

Definition run_braces (cs : list char) : Z * bool := run_from (0, false) cs.

(** Character [k] of the stream is a [}] that brings [depth] to 0 while
    [opened] holds. *)
Definition closes_from (st : Z * bool) (cs : list (Z * char)) (k : nat) : bool :=
  match nth_error cs k with
  | Some (_, c) =>
      let st' := run_from st (List.map snd (firstn (S k) cs)) in
      N.eqb c RBRACE && (snd st' && (fst st' =? 0))
  | None => false
  end.

Definition closes_at (cs : list (Z * char)) (k : nat) : bool :=
  closes_from (0, false) cs k.

(** The scan of the stream, stopping at the first closing character and
    answering the line it is on. *)
Fixpoint first_close (st : Z * bool) (cs : list (Z * char)) : option Z :=
  match cs with
  | [] => None
  | (i, c) :: rest =>
      let st' := brace_step st c in
      if N.eqb c RBRACE && (snd st' && (fst st' =? 0)) then Some i
      else first_close st' rest
  end.

Definition spec_brace_end (lines : list str) (h : Z) : option Z :=
  first_close (0, false) (chars_from lines h).

(** A line holds no line boundary. *)
Definition break_free (line : str) : Prop :=
  forall c, In c line -> is_linebreak c = false.

(** Number of lines of a text, as the line splitter counts them. *)
Definition line_count (s : str) : Z := len (splitlines s).

(** ** Inputs of the scenarios *)

Definition file20 : str := py "package p;
import q;

/** doc */
// 5
// 6
// 7
// 8
// 9
public class Foo {
  int x;
  void f() { if (x > 0) { x = 1; } }
  // comment
  String s;

  int y;

}
// 19
// 20".

Definition file20_lines_10_18 : str := py "public class Foo {
  int x;
  void f() { if (x > 0) { x = 1; } }
  // comment
  String s;

  int y;

}".

(** 60 lines, the header of [Bar] on line 50, its body closed on line 53. *)
Definition file60 : str :=
  join newline (repeat (py "// filler") 49 ++
                [py "final class Bar {"; py "  int y;"; py "  int z;"; py "}"] ++
                repeat (py "// tail") 7).

Definition file60_lines_50_53 : str := py "final class Bar {
  int y;
  int z;
}".

(** A closing brace inside a character literal ends the block on line 2. *)
Definition literal_brace_lines : list str :=
  [py "class A {"; py "  char c = '}';"; py "  int x;"; py "}"].

(** Three lines without any type declaration. *)
Definition fields3 : str := py "int a;
int b;
int c;".

(** A text that is one line terminator, and one whose first line is blank. *)
Definition blank1 : str := [LF].

Definition blank_first : str := py "
class Foo {}
".

Definition sample_row : row :=
  Row (py "k9_0a1b2c") (py "k9") (py "p") (py "Foo") (py "Foo")
      (py "God Class") (py "too many methods") None.

(** ** [read_text] *)

(** A continuation byte of UTF-8. *)
Definition is_cont (b : N) : bool := ((128 <=? b) && (b <=? 191))%N.

(** The second byte allowed after the lead byte of a 3-byte sequence: no
    overlong form after E0, no surrogate after ED. *)
Definition second_of_3 (b0 b1 : N) : bool :=
  (if b0 =? 224 then (160 <=? b1) && (b1 <=? 191)
   else if b0 =? 237 then (128 <=? b1) && (b1 <=? 159)
   else is_cont b1)%N.

(** The same for a 4-byte sequence: no overlong form after F0, nothing
    above U+10FFFF after F4. *)
Definition second_of_4 (b0 b1 : N) : bool :=
  (if b0 =? 240 then (144 <=? b1) && (b1 <=? 191)
   else if b0 =? 244 then (128 <=? b1) && (b1 <=? 143)
   else is_cont b1)%N.

(** [bytes.decode("utf-8")] with strict errors; [None] is
    [UnicodeDecodeError]. *)
Fixpoint utf8_decode (bs : list N) : option str :=
  match bs with
  | [] => Some []
  | b0 :: r0 =>
      if (b0 <? 128)%N then option_map (cons b0) (utf8_decode r0)
      else if ((194 <=? b0) && (b0 <=? 223))%N then
        match r0 with
        | b1 :: r1 =>
            if is_cont b1
            then option_map (cons ((b0 - 192) * 64 + (b1 - 128))%N) (utf8_decode r1)
            else None
        | _ => None
        end
      else if ((224 <=? b0) && (b0 <=? 239))%N then
        match r0 with
        | b1 :: b2 :: r2 =>
            if second_of_3 b0 b1 && is_cont b2
            then option_map
                   (cons (((b0 - 224) * 64 + (b1 - 128)) * 64 + (b2 - 128))%N)
                   (utf8_decode r2)
            else None
        | _ => None
        end
      else if ((240 <=? b0) && (b0 <=? 244))%N then
        match r0 with
        | b1 :: b2 :: b3 :: r3 =>
            if second_of_4 b0 b1 && is_cont b2 && is_cont b3
            then option_map
                   (cons ((((b0 - 240) * 64 + (b1 - 128)) * 64 + (b2 - 128)) * 64
                          + (b3 - 128))%N)
                   (utf8_decode r3)
            else None
        | _ => None
        end
      else None
  end.

(** [bytes.decode("latin-1")]: every byte is its own code point. *)
Definition latin1_decode (content : list Byte.byte) : str :=
  List.map Byte.to_N content.

(** The newline translation of a file opened in text mode with the default
    [newline=None]: CR LF and a lone CR both become LF. *)
Fixpoint universal_newlines (s : str) : str :=
  match s with
  | [] => []
  | c :: rest =>
      if N.eqb c CR then
        LF :: match rest with
              | c' :: rest' =>
                  if N.eqb c' LF then universal_newlines rest'
                  else universal_newlines rest
              | [] => []
              end
      else c :: universal_newlines rest
  end.

(** [read_text] on a file with the given content: UTF-8, and Latin-1 when
    that raises. *)
Definition read_text (content : list Byte.byte) : str :=
  match utf8_decode (List.map Byte.to_N content) with
  | Some s => universal_newlines s
  | None => universal_newlines (latin1_decode content)
  end.

(** ** The loop of [main] *)

(** [str.isdigit] and the decimal value of a digit ([None] for a character
    that is no decimal digit) on the code points above 127, and the
    interpreter's limit on the length of an integer string (0: none). *)
Variable uni_digit : char -> bool.
Variable uni_decimal : char -> option N.
Variable int_max_str_digits : Z.

(** The file tree under [repo_dir]: the first path that [rglob] gives for a
    package and an outer class, whether a path exists, and what it holds. *)
Variable find_java_file : str -> str -> option str.
Variable path_exists : str -> bool.
Variable file_content : str -> list Byte.byte.

(** A cell of the frame read with [dtype=str]: a string, or NaN where the
    file had nothing. *)
Inductive cell := NaN | Str (s : str).

(** [str(cell)] *)
Definition py_str (c : cell) : str :=
  match c with
  | NaN => py "nan"
  | Str s => s
  end.

Definition ascii_digit (c : char) : bool := ((48 <=? c) && (c <=? 57))%N.

Definition is_digit (c : char) : bool :=
  if (c <? 128)%N then ascii_digit c else uni_digit c.

(** [s.isdigit()] *)
Definition isdigit (s : str) : bool :=
  match s with
  | [] => false
  | _ => forallb is_digit s
  end.

Definition decimal_value (c : char) : option Z :=
  if (c <? 128)%N then
    if ascii_digit c then Some (Z.of_N (c - 48)) else None
  else option_map Z.of_N (uni_decimal c).

Fixpoint int_digits (acc : Z) (s : str) : option Z :=
  match s with
  | [] => Some acc
  | c :: rest =>
      match decimal_value c with
      | Some d => int_digits (10 * acc + d) rest
      | None => None
      end
  end.

(** [int(s)] for a string on which [s.isdigit()] holds; [None] is
    [ValueError]. *)
Definition int_of_digits (s : str) : option Z :=
  if (640 <? len s) && (0 <? int_max_str_digits) && (int_max_str_digits <? len s)
  then None
  else int_digits 0 s.

(** A row of [smells.csv] whose other columns hold strings, with its
    [Line no] cell ([None]: the frame has no such column). *)
Record smell_row := SmellRow {
  columns : row;
  line_no : option cell
}.

Inductive main_exn := ValueError | FromExtractor (e : exn).

(** What one turn of the loop does: [continue], write a record, or raise. *)
Inductive row_outcome :=
| Skipped
| Written (c : case)
| Aborted (e : main_exn).

Definition process_row (r : smell_row) (loc_limit : Z) : row_outcome :=
  match line_no r with
  | None => Skipped
  | Some c =>
      if negb (isdigit (py_str c)) then Skipped
      else
        match int_of_digits (py_str c) with
        | None => Aborted ValueError
        | Some start_line =>
            match find_java_file (r_package (columns r))
                                 (r_outer_class (columns r)) with
            | None => Skipped
            | Some java_path =>
                if negb (path_exists java_path) then Skipped
                else
                  let code := read_text (file_content java_path) in
                  match build_case (columns r) java_path code start_line loc_limit with
                  | Ok obj => Written obj
                  | Raise e => Aborted (FromExtractor e)
                  end
            end
        end
  end.

(** The run of [main]: the records written and [n_written], or the
    exception that ended it with the records written until then. *)
Inductive run :=
| Finished (written : list case) (n_written : Z)
| Crashed (e : main_exn) (written : list case).

Fixpoint main_loop (rows : list smell_row) (loc_limit : Z)
    (written : list case) (n_written : Z) : run :=
  match rows with
  | [] => Finished written n_written
  | r :: rest =>
      match process_row r loc_limit with
      | Skipped => main_loop rest loc_limit written n_written
      | Written obj => main_loop rest loc_limit (written ++ [obj]) (n_written + 1)
      | Aborted e => Crashed e written
      end
  end.

Definition main (rows : list smell_row) (loc_limit : Z) : run :=
  main_loop rows loc_limit [] 0.

(** ** Further notions *)

(** A list of lines without its last line when that line is empty. *)
Fixpoint drop_final_blank (ls : list str) : list str :=
  match ls with
  | [] => []
  | [l] => match l with [] => [] | _ => [l] end
  | l :: rest => l :: drop_final_blank rest
  end.

(** The records of the rows that are not skipped, in the order of the rows. *)
Definition records_of (rows : list smell_row) (loc_limit : Z) : list case :=
  flat_map (fun r => match process_row r loc_limit with
                     | Written obj => [obj]
                     | _ => []
                     end) rows.

(** The tables of digits restricted to Latin-1: the superscripts 1, 2, 3
    count as digits and have no decimal value. *)
Definition latin1_digit (c : char) : bool := existsb (N.eqb c) [178; 179; 185]%N.

Definition latin1_decimal (c : char) : option N := None.

(** ** Inputs for the loop of [main] *)

(** A class whose body is never closed. *)
Definition unterminated : str := py "class Foo {
  int x;".

(** A file tree that holds one file, whatever is looked for. *)
Definition foo_bytes : list Byte.byte := list_byte_of_string "class Foo {
  int x;
}
".

Definition one_file_tree (package outer_class : str) : option str :=
  Some (py "src/p/Foo.java").

Definition always_exists (java_path : str) : bool := true.

Definition foo_content (java_path : str) : list Byte.byte := foo_bytes.

(** Rows with line number 2, with an empty cell, and with the digit
    SUPERSCRIPT TWO as line number. *)
Definition good_row : smell_row := SmellRow sample_row (Some (Str (py "2"))).

Definition nan_row : smell_row := SmellRow sample_row (Some NaN).

Definition bad_row : smell_row := SmellRow sample_row (Some (Str [178%N])).

(** * Properties *)

Unset Implicit Arguments.

(** ** Python lists *)

Lemma len_nonneg {A} (l : list A) : 0 <= len l.
Proof. unfold len; lia. Qed.

Lemma len_app {A} (l1 l2 : list A) : len (l1 ++ l2) = len l1 + len l2.
Proof. unfold len; rewrite length_app; lia. Qed.

Lemma len_cons {A} (x : A) (l : list A) : len (x :: l) = len l + 1.
Proof. unfold len; simpl List.length; lia. Qed.

Lemma py_getitem_in_range {A} (l : list A) (i : Z) :
  0 <= i < len l ->
  exists x, nth_error l (Z.to_nat i) = Some x /\ py_getitem l i = Ok x.
Proof.
  intros Hi. unfold py_getitem.
  destruct (Z.ltb_spec i 0) as [Hn | _]; [lia |].
  destruct (Z.ltb_spec i 0) as [Hn | _]; [lia |].
  destruct (nth_error l (Z.to_nat i)) as [x |] eqn:E.
  - exists x; auto.
  - apply nth_error_None in E. unfold len in Hi. lia.
Qed.

Lemma py_getitem_last {A} (l : list A) (d : A) :
  l <> [] -> py_getitem l (-1) = Ok (last l d).
Proof.
  intros Hl. unfold py_getitem.
  assert (Hlen : 1 <= len l).
  { destruct l; [congruence | rewrite len_cons; pose proof (len_nonneg l); lia]. }
  change (-1 <? 0) with true. cbv iota.
  destruct (Z.ltb_spec (-1 + len l) 0) as [Hn | _]; [lia |].
  destruct (exists_last Hl) as (l' & x & ->).
  rewrite last_last, len_app.
  replace (Z.to_nat (-1 + (len l' + len [x]))) with (List.length l')
    by (unfold len; simpl List.length; lia).
  now rewrite nth_error_app2, Nat.sub_diag by lia.
Qed.

Lemma split_char_nonempty (sep : char) (s : str) : split_char sep s <> [].
Proof.
  destruct s as [| c rest]; simpl; [discriminate |].
  destruct (N.eqb c sep); [discriminate |].
  destruct (split_char sep rest); discriminate.
Qed.

Lemma py_range_nil (a b : Z) : b <= a -> py_range a b = [].
Proof.
  intros H. unfold py_range. now replace (Z.to_nat (b - a)) with 0%nat by lia.
Qed.

Lemma py_range_cons (a b : Z) : a < b -> py_range a b = a :: py_range (a + 1) b.
Proof.
  intros H. unfold py_range.
  replace (Z.to_nat (b - a)) with (S (Z.to_nat (b - (a + 1)))) by lia.
  simpl seq. simpl List.map. f_equal; [lia |].
  rewrite <- seq_shift, map_map. apply map_ext. intros k. lia.
Qed.

Lemma py_range_In (a b k : Z) : In k (py_range a b) <-> a <= k < b.
Proof.
  unfold py_range. rewrite in_map_iff. split.
  - intros (j & <- & Hj). apply in_seq in Hj. lia.
  - intros Hk. exists (Z.to_nat (k - a)). split; [lia |]. apply in_seq. lia.
Qed.

(** Induction along [range(a, b)], from the left. *)
Lemma py_range_ind (b : Z) (P : Z -> Prop) :
  (forall a, b <= a -> P a) ->
  (forall a, a < b -> P (a + 1) -> P a) ->
  forall a, P a.
Proof.
  intros Hstop Hstep a.
  remember (Z.to_nat (b - a)) as m eqn:Em.
  revert a Em. induction m as [| m IH]; intros a Em.
  - apply Hstop. lia.
  - apply Hstep; [lia |]. apply IH. lia.
Qed.

Lemma find_py_range_first (P : Z -> bool) (b k a : Z) :
  find P (py_range a b) = Some k <-> first_in P a b k.
Proof.
  revert a. apply (@py_range_ind b); intros a Hab.
  - rewrite py_range_nil by lia. unfold first_in. split; [discriminate | lia].
  - intros IH. rewrite py_range_cons by lia. simpl find. unfold first_in in *.
    destruct (P a) eqn:Pa.
    + split.
      * intros [= <-]. repeat split; try lia; auto.
      * intros (Hk & Pk & Hmin). f_equal.
        destruct (Z.eq_dec a k) as [-> | Hne]; [reflexivity |].
        rewrite Hmin in Pa by lia. discriminate.
    + rewrite IH. split.
      * intros (Hk & Pk & Hmin). repeat split; try lia; auto.
        intros j Hj. destruct (Z.eq_dec j a) as [-> | Hne]; [assumption |].
        apply Hmin. lia.
      * intros (Hk & Pk & Hmin).
        assert (a <> k) by (intros ->; congruence).
        repeat split; try lia; auto. intros j Hj. apply Hmin. lia.
Qed.

Lemma find_py_range_none (P : Z -> bool) (a b : Z) :
  find P (py_range a b) = None <-> forall j, a <= j < b -> P j = false.
Proof.
  split.
  - intros H j Hj. apply (find_none _ _ H). now apply py_range_In.
  - intros H. destruct (find P (py_range a b)) as [k |] eqn:E; [| reflexivity].
    apply find_some in E. destruct E as [Hin Pk].
    apply py_range_In in Hin. rewrite H in Pk by assumption. discriminate.
Qed.

(** ** The header search *)

Lemma search_window_find (name : str) (lines : list str) (b : Z) :
  b <= len lines ->
  forall a, 0 <= a ->
  search_window name lines (py_range a b)
  = Ok (find (line_matches name lines) (py_range a b)).
Proof.
  intros Hb. apply (@py_range_ind b (fun a => 0 <= a -> _)); intros a Hab.
  - intros _. now rewrite py_range_nil by lia.
  - intros IH Ha. rewrite py_range_cons by lia. simpl.
    destruct (@py_getitem_in_range _ lines a) as (line & Hnth & ->); [lia |].
    simpl. unfold line_matches at 1. rewrite Hnth.
    destruct (Z.leb_spec 0 a); [| lia]. simpl.
    destruct (header_pat_search name line); [reflexivity |].
    apply IH. lia.
Qed.

Lemma scan_file_find (name : str) (rest pre : list str) :
  scan_file name rest (len pre)
  = find (line_matches name (pre ++ rest)) (py_range (len pre) (len (pre ++ rest))).
Proof.
  revert pre. induction rest as [| line rest IH]; intros pre.
  - rewrite app_nil_r, py_range_nil by lia. reflexivity.
  - pose proof (len_nonneg pre) as Hpre. pose proof (len_nonneg rest) as Hrest.
    rewrite py_range_cons by (rewrite len_app, len_cons; lia).
    simpl. unfold line_matches at 1.
    destruct (Z.leb_spec 0 (len pre)); [| lia].
    replace (Z.to_nat (len pre)) with (List.length pre + 0)%nat
      by (unfold len; lia).
    rewrite nth_error_app2, Nat.add_comm, Nat.add_sub by lia. simpl.
    destruct (header_pat_search name line); [reflexivity |].
    specialize (IH (pre ++ [line])).
    rewrite <- app_assoc in IH. simpl in IH.
    rewrite len_app, len_cons in IH. simpl in IH.
    replace (len pre + (len (@nil str) + 1)) with (len pre + 1) in IH
      by (unfold len; simpl List.length; lia).
    exact IH.
Qed.

Lemma scan_file_whole (name : str) (lines : list str) :
  scan_file name lines 0
  = find (line_matches name lines) (py_range 0 (len lines)).
Proof. exact (scan_file_find name lines []). Qed.

Lemma find_header_find (name : str) (lines : list str) (start_idx : Z) :
  find_header name lines start_idx
  = Ok match find (line_matches name lines)
                  (py_range (window_lo start_idx)
                            (window_hi (len lines) start_idx)) with
       | Some h => Some h
       | None => find (line_matches name lines) (py_range 0 (len lines))
       end.
Proof.
  unfold find_header, window_lo, window_hi.
  rewrite search_window_find by lia. simpl.
  destruct (find _ _); [reflexivity |]. now rewrite scan_file_whole.
Qed.

Lemma find_header_bounds (name : str) (lines : list str) (start_idx h : Z) :
  find_header name lines start_idx = Ok (Some h) ->
  0 <= h < len lines /\ line_matches name lines h = true.
Proof.
  rewrite find_header_find. intros [= H].
  destruct (find _ (py_range (window_lo _) _)) as [k |] eqn:E.
  - injection H as ->. apply find_py_range_first in E.
    unfold first_in, window_lo, window_hi in E.
    destruct E as (Hk & Pk & _). split; [lia | exact Pk].
  - apply find_py_range_first in H. destruct H as (Hk & Pk & _).
    split; [exact Hk | exact Pk].
Qed.

(** ** The brace matcher *)

Lemma scan_line_stream (i : Z) (rest : list (Z * char)) (line : str) (d : Z) (o : bool) :
  first_close (d, o) (List.map (pair i) line ++ rest)
  = if closed (scan_line line d o) then Some i
    else first_close (depth (scan_line line d o), opened (scan_line line d o)) rest.
Proof.
  revert d o. induction line as [| ch line IH]; intros d o; simpl.
  - reflexivity.
  - unfold brace_step. simpl.
    destruct (N.eqb ch LBRACE) eqn:EL.
    + apply N.eqb_eq in EL. subst ch. simpl. apply IH.
    + destruct (N.eqb ch RBRACE) eqn:ER; simpl.
      * destruct (o && (d - 1 =? 0)) eqn:EC; simpl; [reflexivity | apply IH].
      * apply IH.
Qed.

Lemma chars_from_nil (lines : list str) (h : Z) :
  len lines <= h -> chars_from lines h = [].
Proof. intros H. unfold chars_from. now rewrite py_range_nil. Qed.

Lemma chars_from_cons (lines : list str) (h : Z) (line : str) :
  0 <= h -> nth_error lines (Z.to_nat h) = Some line ->
  chars_from lines h = List.map (pair h) line ++ chars_from lines (h + 1).
Proof.
  intros Hh Hnth. unfold chars_from.
  assert (h < len lines).
  { assert (Z.to_nat h < List.length lines)%nat
      by (apply nth_error_Some; congruence).
    unfold len; lia. }
  rewrite py_range_cons by lia. simpl. now rewrite Hnth.
Qed.

Lemma match_braces_stream (lines : list str) (h : Z) :
  forall d o, 0 <= h ->
  match_braces lines (py_range h (len lines)) d o
  = Ok (first_close (d, o) (chars_from lines h)).
Proof.
  revert h.
  apply (@py_range_ind (len lines)
           (fun h => forall d o, 0 <= h -> _)); intros h Hh.
  - intros d o _. now rewrite py_range_nil, chars_from_nil by lia.
  - intros IH d o H0. rewrite py_range_cons by lia. simpl.
    destruct (@py_getitem_in_range _ lines h) as (line & Hnth & ->); [lia |].
    simpl. rewrite (chars_from_cons lines h line H0 Hnth), scan_line_stream.
    destruct (closed (scan_line line d o)); [reflexivity |].
    apply IH. lia.
Qed.

Lemma closes_from_0 (st : Z * bool) (i : Z) (c : char) (rest : list (Z * char)) :
  closes_from st ((i, c) :: rest) 0
  = N.eqb c RBRACE && (snd (brace_step st c) && (fst (brace_step st c) =? 0)).
Proof. reflexivity. Qed.

Lemma closes_from_S (st : Z * bool) (i : Z) (c : char) (rest : list (Z * char)) (k : nat) :
  closes_from st ((i, c) :: rest) (S k) = closes_from (brace_step st c) rest k.
Proof. reflexivity. Qed.

Lemma first_close_some (cs : list (Z * char)) :
  forall st e,
  first_close st cs = Some e <->
  exists k c, nth_error cs k = Some (e, c) /\ closes_from st cs k = true /\
              forall j, (j < k)%nat -> closes_from st cs j = false.
Proof.
  induction cs as [| [i c] rest IH]; intros st e.
  - simpl. split; [discriminate |]. intros (k & c & H & _). now destruct k.
  - cbn [first_close].
    destruct (N.eqb c RBRACE && _) eqn:EC.
    + split.
      * intros [= <-]. exists 0%nat, c. rewrite closes_from_0.
        repeat split; auto. lia.
      * intros (k & c' & Hnth & Hk & Hmin). destruct k as [| k].
        -- simpl in Hnth. congruence.
        -- specialize (Hmin 0%nat ltac:(lia)). rewrite closes_from_0 in Hmin.
           congruence.
    + rewrite IH. split.
      * intros (k & c' & Hnth & Hk & Hmin). exists (S k), c'.
        rewrite closes_from_S. repeat split; auto.
        intros [| j] Hj; [now rewrite closes_from_0 |].
        rewrite closes_from_S. apply Hmin. lia.
      * intros (k & c' & Hnth & Hk & Hmin). destruct k as [| k].
        -- rewrite closes_from_0 in Hk. congruence.
        -- exists k, c'. rewrite closes_from_S in Hk. repeat split; auto.
           intros j Hj. rewrite <- closes_from_S with (i := i). apply Hmin. lia.
Qed.

Lemma first_close_none (cs : list (Z * char)) :
  forall st, first_close st cs = None <-> forall k, closes_from st cs k = false.
Proof.
  induction cs as [| [i c] rest IH]; intros st.
  - split; [| reflexivity]. intros _ k. unfold closes_from. now destruct k.
  - cbn [first_close].
    destruct (N.eqb c RBRACE && _) eqn:EC.
    + split; [discriminate |]. intros H. specialize (H 0%nat).
      rewrite closes_from_0 in H. congruence.
    + rewrite IH. split.
      * intros H [| k]; [now rewrite closes_from_0 | now rewrite closes_from_S].
      * intros H k. rewrite <- closes_from_S with (i := i). apply H.
Qed.

(** [depth] is the number of [{] minus the number of [}] read so far, and
    [opened] says whether a [{] was read. *)
Lemma run_from_counts (cs : list char) :
  forall st,
  run_from st cs
  = (fst st + Z.of_nat (count_occ N.eq_dec cs LBRACE)
            - Z.of_nat (count_occ N.eq_dec cs RBRACE),
     snd st || existsb (fun c => N.eqb c LBRACE) cs).
Proof.
  unfold run_from.
  induction cs as [| c cs IH]; intros [d o]; cbn [fold_left count_occ existsb fst snd].
  - f_equal; [lia | now rewrite orb_false_r].
  - rewrite IH. unfold brace_step. cbn [fst snd].
    destruct (N.eqb_spec c LBRACE) as [-> | HL].
    + destruct (N.eq_dec LBRACE LBRACE) as [_ | []]; [| reflexivity].
      destruct (N.eq_dec LBRACE RBRACE) as [E | _]; [discriminate E |].
      cbn [fst snd]. f_equal; [lia | now rewrite orb_true_r].
    + destruct (N.eq_dec c LBRACE) as [E | _]; [contradiction |].
      destruct (N.eqb_spec c RBRACE) as [-> | HR].
      * destruct (N.eq_dec RBRACE RBRACE) as [_ | []]; [| reflexivity].
        cbn [fst snd orb]. f_equal. lia.
      * destruct (N.eq_dec c RBRACE) as [E | _]; [contradiction |].
        reflexivity.
Qed.

Lemma chars_from_In (lines : list str) (h e : Z) (c : char) :
  In (e, c) (chars_from lines h) ->
  h <= e < len lines /\
  exists line, nth_error lines (Z.to_nat e) = Some line /\ In c line.
Proof.
  unfold chars_from. rewrite in_flat_map. intros (i & Hi & Hin).
  apply py_range_In in Hi.
  destruct (nth_error lines (Z.to_nat i)) as [line |] eqn:E; [| contradiction].
  apply in_map_iff in Hin. destruct Hin as (c' & [= -> ->] & Hc).
  split; [assumption |]. now exists line.
Qed.

Lemma match_braces_end_bounds (lines : list str) (h e d : Z) (o : bool) :
  0 <= h ->
  match_braces lines (py_range h (len lines)) d o = Ok (Some e) ->
  h <= e < len lines.
Proof.
  intros Hh. rewrite match_braces_stream by assumption. intros [= H].
  apply first_close_some in H. destruct H as (k & c & Hnth & _).
  apply nth_error_In in Hnth. now apply chars_from_In in Hnth.
Qed.

(** Where the inner loop leaves through [break], the line splits at the
    closing brace and whatever follows that brace has no influence. *)
Lemma scan_line_closed_split (line : str) :
  forall d o, closed (scan_line line d o) = true ->
  exists pre post, line = pre ++ RBRACE :: post /\
    forall post', scan_line (pre ++ RBRACE :: post') d o = scan_line line d o.
Proof.
  induction line as [| ch line IH]; intros d o; simpl; [discriminate |].
  destruct (N.eqb ch LBRACE) eqn:EL.
  - intros H. destruct (IH _ _ H) as (pre & post & -> & Hpost).
    exists (ch :: pre), post. split; [reflexivity |].
    intros post'. simpl. rewrite EL. apply Hpost.
  - destruct (N.eqb_spec ch RBRACE) as [-> | HR].
    + destruct (o && (d - 1 =? 0)) eqn:EC.
      * intros _. exists [], line. split; [reflexivity |].
        intros post'. simpl. now rewrite EC.
      * intros H. destruct (IH _ _ H) as (pre & post & -> & Hpost).
        exists (RBRACE :: pre), post. split; [reflexivity |].
        intros post'. simpl. rewrite EC. apply Hpost.
    + intros H. destruct (IH _ _ H) as (pre & post & -> & Hpost).
      exists (ch :: pre), post. split; [reflexivity |].
      intros post'. simpl. rewrite EL.
      destruct (N.eqb_spec ch RBRACE); [contradiction | apply Hpost].
Qed.

Lemma match_braces_prefix_only (lines : list str) (e : Z) :
  forall h d o, 0 <= h ->
  match_braces lines (py_range h (len lines)) d o = Ok (Some e) ->
  exists pre post,
    nth_error lines (Z.to_nat e) = Some (pre ++ RBRACE :: post) /\
    forall post' after,
      match_braces (firstn (Z.to_nat e) lines ++ (pre ++ RBRACE :: post') :: after)
        (py_range h (len (firstn (Z.to_nat e) lines
                          ++ (pre ++ RBRACE :: post') :: after))) d o
      = Ok (Some e).
Proof.
  apply (@py_range_ind (len lines)
           (fun h => forall d o, 0 <= h -> _ -> _)); intros h Hh.
  - intros d o _. rewrite py_range_nil by lia. discriminate.
  - intros IH d o H0. rewrite py_range_cons by lia. simpl.
    destruct (@py_getitem_in_range _ lines h) as (line & Hnth & ->); [lia |].
    simpl. destruct (closed (scan_line line d o)) eqn:EC.
    + intros [= <-].
      destruct (scan_line_closed_split _ _ _ EC) as (pre & post & -> & Hpost).
      exists pre, post. split; [assumption |]. intros post' after.
      assert (Hlen : List.length (firstn (Z.to_nat h) lines) = Z.to_nat h)
        by (rewrite length_firstn; unfold len in Hh; lia).
      rewrite py_range_cons
        by (rewrite len_app, len_cons; unfold len; rewrite Hlen;
            pose proof (len_nonneg after); unfold len in *; lia).
      simpl.
      destruct (@py_getitem_in_range _
                  (firstn (Z.to_nat h) lines ++ (pre ++ RBRACE :: post') :: after) h)
        as (line' & Hnth' & ->).
      { rewrite len_app, len_cons. unfold len. rewrite Hlen. lia. }
      rewrite nth_error_app2, Hlen, Nat.sub_diag in Hnth' by lia.
      injection Hnth' as <-. simpl. now rewrite Hpost, EC.
    + intros Hrec.
      assert (Hbound : h + 1 <= e < len lines)
        by (eapply match_braces_end_bounds; [| exact Hrec]; lia).
      assert (H1 : 0 <= h + 1) by lia.
      destruct (IH _ _ H1 Hrec) as (pre & post & Hline & Hafter).
      exists pre, post. split; [assumption |]. intros post' after.
      assert (Hlen : List.length (firstn (Z.to_nat e) lines) = Z.to_nat e)
        by (rewrite length_firstn; unfold len in Hbound; lia).
      rewrite py_range_cons
        by (rewrite len_app, len_cons; unfold len; rewrite Hlen; lia).
      simpl.
      destruct (@py_getitem_in_range _
                  (firstn (Z.to_nat e) lines ++ (pre ++ RBRACE :: post') :: after) h)
        as (line' & Hnth' & ->).
      { rewrite len_app, len_cons. unfold len. rewrite Hlen. lia. }
      rewrite nth_error_app1, nth_error_firstn in Hnth' by lia.
      destruct (Nat.ltb_spec (Z.to_nat h) (Z.to_nat e)); [| lia].
      rewrite Hnth in Hnth'. injection Hnth' as <-. simpl. rewrite EC.
      apply Hafter.
Qed.

(** ** Slices *)

Lemma clamp_bound_range (n i : Z) : 0 <= n -> 0 <= clamp_bound n i <= n.
Proof. unfold clamp_bound. destruct (Z.ltb_spec i 0); lia. Qed.

Lemma clamp_bound_id (n i : Z) : 0 <= i <= n -> clamp_bound n i = i.
Proof. unfold clamp_bound. destruct (Z.ltb_spec i 0); lia. Qed.

Lemma clamp_bound_above (n i : Z) : 0 <= n <= i -> clamp_bound n i = n.
Proof. unfold clamp_bound. destruct (Z.ltb_spec i 0); lia. Qed.

Lemma clamp_bound_min (n i : Z) :
  0 <= n -> clamp_bound n (Z.min n i) = clamp_bound n i.
Proof.
  intros Hn. unfold clamp_bound.
  destruct (Z.ltb_spec i 0), (Z.ltb_spec (Z.min n i) 0); lia.
Qed.

Lemma sublist_length {A} (i j : nat) (l : list A) :
  (j <= List.length l)%nat -> List.length (sublist i j l) = (j - i)%nat.
Proof. intros H. unfold sublist. rewrite length_firstn, length_skipn. lia. Qed.

Lemma sublist_same_width {A} (i j j' : nat) (l : list A) :
  (j - i = j' - i)%nat -> sublist i j l = sublist i j' l.
Proof. unfold sublist. now intros ->. Qed.

Lemma sublist_prefix {A} (j : nat) (l : list A) : sublist 0 j l = firstn j l.
Proof. unfold sublist. now rewrite Nat.sub_0_r. Qed.

Lemma sublist_sublist {A} (i j i' j' : nat) (l : list A) :
  (j' <= j - i)%nat ->
  sublist i' j' (sublist i j l) = sublist (i + i') (i + j') l.
Proof.
  intros H. unfold sublist.
  rewrite skipn_firstn_comm, firstn_firstn, skipn_skipn.
  replace (i' + i)%nat with (i + i')%nat by lia.
  f_equal. lia.
Qed.

Lemma sublist_cons_nth {A} (i j : nat) (l : list A) (x : A) :
  nth_error l i = Some x -> (i < j)%nat ->
  sublist i j l = x :: sublist (S i) j l.
Proof.
  intros Hnth Hij. unfold sublist.
  replace (j - i)%nat with (S (j - S i)) by lia.
  generalize (j - S i)%nat as m. intros m. clear Hij.
  revert l Hnth. induction i as [| i IH]; intros [| y l] Hnth;
    simpl in Hnth; try discriminate.
  - now injection Hnth as ->.
  - now apply IH.
Qed.

(** Every slice is a contiguous run of the list. *)
Lemma py_slice_sublist {A} (l : list A) (lo hi : option Z) :
  exists i j, (i <= j <= List.length l)%nat /\ py_slice l lo hi = sublist i j l.
Proof.
  unfold py_slice. pose proof (len_nonneg l) as Hn.
  set (a := match lo with None => 0 | Some i => clamp_bound (len l) i end).
  set (b := match hi with None => len l | Some j => clamp_bound (len l) j end).
  assert (Ha : 0 <= a <= len l)
    by (subst a; destruct lo; [apply clamp_bound_range |]; lia).
  assert (Hb : 0 <= b <= len l)
    by (subst b; destruct hi; [apply clamp_bound_range |]; lia).
  exists (Z.to_nat a), (Nat.max (Z.to_nat a) (Z.to_nat b)).
  split; [unfold len in *; lia |]. apply sublist_same_width. lia.
Qed.

Lemma py_slice_bounds {A} (l : list A) (a b : Z) :
  0 <= a -> 0 <= b <= len l ->
  py_slice l (Some a) (Some b) = sublist (Z.to_nat a) (Z.to_nat b) l.
Proof.
  intros Ha Hb. unfold py_slice. rewrite (clamp_bound_id (len l) b) by lia.
  destruct (Z.le_gt_cases a (len l)).
  - now rewrite clamp_bound_id by lia.
  - rewrite clamp_bound_above by lia. unfold sublist.
    replace (Z.to_nat b - Z.to_nat (len l))%nat with 0%nat by lia.
    replace (Z.to_nat b - Z.to_nat a)%nat with 0%nat by lia.
    reflexivity.
Qed.

Lemma py_slice_firstn {A} (l : list A) (k : Z) :
  0 <= k -> py_slice l None (Some k) = firstn (Z.to_nat k) l.
Proof.
  intros Hk. unfold py_slice. rewrite sublist_prefix.
  unfold clamp_bound. destruct (Z.ltb_spec k 0); [lia |].
  destruct (Z.le_gt_cases k (len l)).
  - now rewrite Z.min_l by lia.
  - rewrite Z.min_r by lia. unfold len in *.
    rewrite Nat2Z.id, firstn_all. symmetry. apply firstn_all2. lia.
Qed.

Lemma py_slice_from_0 {A} (l : list A) (hi : option Z) :
  py_slice l (Some 0) hi = py_slice l None hi.
Proof.
  unfold py_slice. now rewrite clamp_bound_id by (pose proof (len_nonneg l); lia).
Qed.

(** The [min(n, ...)] put on the upper bound is what slicing does anyway. *)
Lemma py_slice_min_hi {A} (l : list A) (lo : option Z) (hi : Z) :
  py_slice l lo (Some (Z.min (len l) hi)) = py_slice l lo (Some hi).
Proof.
  unfold py_slice. now rewrite clamp_bound_min by apply len_nonneg.
Qed.

(** The window [lines[lo : min(n, lo + limit)]] of the fallbacks. *)
Lemma py_slice_window {A} (l : list A) (lo limit : Z) :
  0 <= lo < len l -> 1 <= limit ->
  exists j, (Z.to_nat lo < j <= List.length l)%nat /\
            Z.of_nat j - lo <= limit /\
            py_slice l (Some lo) (Some (Z.min (len l) (lo + limit)))
            = sublist (Z.to_nat lo) j l.
Proof.
  intros Hlo Hlim. exists (Z.to_nat (Z.min (len l) (lo + limit))).
  unfold len in *. repeat split; try lia.
  apply py_slice_bounds; unfold len; lia.
Qed.

(** ** The four returns of [extract_class_block] *)

Lemma simple_name_getitem (class_name : str) :
  py_getitem (split_char DOT class_name) (-1) = Ok (simple_name class_name).
Proof. apply py_getitem_last, split_char_nonempty. Qed.

Lemma range_test_out (n start_line : Z) :
  start_line < 1 \/ n < start_line ->
  (start_line <? 1) || (start_line >? n) = true.
Proof.
  intros H. apply orb_true_iff.
  rewrite Z.gtb_ltb.
  destruct H; [left | right]; now apply Z.ltb_lt.
Qed.

Lemma range_test_in (n start_line : Z) :
  1 <= start_line <= n ->
  (start_line <? 1) || (start_line >? n) = false.
Proof.
  intros H. apply orb_false_iff. rewrite Z.gtb_ltb.
  split; apply Z.ltb_ge; lia.
Qed.

Lemma extract_out_of_range (text : str) (start_line : Z) (class_name : str)
    (loc_limit : Z) :
  start_line < 1 \/ len (splitlines text) < start_line ->
  extract_class_block text start_line class_name loc_limit
  = Ok (join newline (py_slice (splitlines text) None (Some loc_limit))).
Proof.
  intros H. unfold extract_class_block. cbv zeta.
  now rewrite range_test_out.
Qed.

Lemma extract_no_header (text : str) (start_line : Z) (class_name : str)
    (loc_limit : Z) :
  1 <= start_line <= len (splitlines text) ->
  find_header (simple_name class_name) (splitlines text) (start_line - 1) = Ok None ->
  extract_class_block text start_line class_name loc_limit
  = Ok (join newline
          (py_slice (splitlines text) (Some (window_lo (start_line - 1)))
             (Some (Z.min (len (splitlines text))
                          (window_lo (start_line - 1) + loc_limit))))).
Proof.
  intros Hin Hfind. unfold extract_class_block. cbv zeta.
  rewrite range_test_in, simple_name_getitem by assumption.
  cbn [bind]. now rewrite Hfind.
Qed.

Lemma extract_no_end (text : str) (start_line : Z) (class_name : str)
    (loc_limit h : Z) :
  1 <= start_line <= len (splitlines text) ->
  find_header (simple_name class_name) (splitlines text) (start_line - 1)
  = Ok (Some h) ->
  match_braces (splitlines text) (py_range h (len (splitlines text))) 0 false
  = Ok None ->
  extract_class_block text start_line class_name loc_limit
  = Ok (join newline
          (py_slice (splitlines text) (Some h)
             (Some (Z.min (len (splitlines text)) (h + loc_limit))))).
Proof.
  intros Hin Hfind Hbr. unfold extract_class_block. cbv zeta.
  rewrite range_test_in, simple_name_getitem by assumption.
  cbn [bind]. rewrite Hfind. cbn [bind]. rewrite Hbr. cbn [bind].
  apply find_header_bounds in Hfind. now rewrite Z.max_r by lia.
Qed.

Lemma extract_block (text : str) (start_line : Z) (class_name : str)
    (loc_limit h e : Z) :
  1 <= start_line <= len (splitlines text) ->
  find_header (simple_name class_name) (splitlines text) (start_line - 1)
  = Ok (Some h) ->
  match_braces (splitlines text) (py_range h (len (splitlines text))) 0 false
  = Ok (Some e) ->
  extract_class_block text start_line class_name loc_limit
  = Ok (join newline
          (if len (py_slice (splitlines text) (Some h) (Some (e + 1))) >? loc_limit
           then py_slice (py_slice (splitlines text) (Some h) (Some (e + 1)))
                  None (Some loc_limit)
           else py_slice (splitlines text) (Some h) (Some (e + 1)))).
Proof.
  intros Hin Hfind Hbr. unfold extract_class_block. cbv zeta.
  rewrite range_test_in, simple_name_getitem by assumption.
  cbn [bind]. rewrite Hfind. cbn [bind]. rewrite Hbr. cbn [bind].
  apply find_header_bounds in Hfind. now rewrite Z.max_r by lia.
Qed.

(** The same four cases for [terminal_state]. *)
Lemma terminal_state_cases (text : str) (start_line : Z) (class_name : str) :
  let lines := splitlines text in
  (start_line < 1 \/ len lines < start_line) /\
    terminal_state text start_line class_name = Ok StateA
  \/
  1 <= start_line <= len lines /\
  (find_header (simple_name class_name) lines (start_line - 1) = Ok None /\
     terminal_state text start_line class_name = Ok StateB
   \/
   exists h,
     find_header (simple_name class_name) lines (start_line - 1) = Ok (Some h) /\
     0 <= h < len lines /\
     (match_braces lines (py_range h (len lines)) 0 false = Ok None /\
        terminal_state text start_line class_name = Ok StateC
      \/
      exists e,
        match_braces lines (py_range h (len lines)) 0 false = Ok (Some e) /\
        h <= e < len lines /\
        terminal_state text start_line class_name = Ok StateD)).
Proof.
  intros lines. unfold terminal_state. cbv zeta. fold lines.
  destruct (Z.lt_ge_cases start_line 1) as [Hlow | Hlow];
    [left; split; [lia | now rewrite range_test_out by lia] |].
  destruct (Z.lt_ge_cases (len lines) start_line) as [Hhigh | Hhigh];
    [left; split; [lia | now rewrite range_test_out by lia] |].
  right. split; [lia |].
  rewrite range_test_in, simple_name_getitem by lia. cbn [bind].
  destruct (find_header (simple_name class_name) lines (start_line - 1))
    as [[h |] | ex] eqn:Hfind.
  - right. exists h. pose proof (find_header_bounds _ _ _ _ Hfind) as [Hh _].
    split; [reflexivity |]. split; [assumption |]. cbn [bind].
    rewrite match_braces_stream by lia.
    destruct (first_close (0, false) (chars_from lines h)) as [e |] eqn:Hclose.
    + right. exists e. split; [reflexivity |]. split; [| reflexivity].
      apply (match_braces_end_bounds lines h e 0 false); [lia |].
      now rewrite match_braces_stream, Hclose by lia.
    + left. split; reflexivity.
  - left. split; reflexivity.
  - rewrite find_header_find in Hfind. discriminate.
Qed.

Lemma find_header_none (name : str) (lines : list str) (start_idx : Z) :
  (forall k line, nth_error lines k = Some line ->
                  header_pat_search name line = false) ->
  find_header name lines start_idx = Ok None.
Proof.
  intros Hno. rewrite find_header_find.
  assert (Hall : forall a b j, a <= j < b -> line_matches name lines j = false).
  { intros a b j _. unfold line_matches.
    destruct (nth_error lines (Z.to_nat j)) as [line |] eqn:E;
      [| now rewrite andb_false_r].
    now rewrite (Hno _ _ E), andb_false_r. }
  now rewrite (proj2 (find_py_range_none _ _ _) (Hall _ _)),
              (proj2 (find_py_range_none _ _ _) (Hall _ _)).
Qed.

(** The block [lines[h : e + 1]], cut to [loc_limit] lines. *)
Lemma block_truncation (lines : list str) (h e loc_limit : Z) :
  0 <= h <= e -> e < len lines -> 0 <= loc_limit ->
  (if len (py_slice lines (Some h) (Some (e + 1))) >? loc_limit
   then py_slice (py_slice lines (Some h) (Some (e + 1))) None (Some loc_limit)
   else py_slice lines (Some h) (Some (e + 1)))
  = firstn (Z.to_nat loc_limit) (sublist (Z.to_nat h) (Z.to_nat e + 1) lines).
Proof.
  intros Hh He Hlim. rewrite py_slice_bounds by lia.
  replace (Z.to_nat (e + 1)) with (Z.to_nat e + 1)%nat by lia.
  rewrite Z.gtb_ltb.
  destruct (Z.ltb_spec loc_limit (len (sublist (Z.to_nat h) (Z.to_nat e + 1) lines)))
    as [Hlt | Hge].
  - now apply py_slice_firstn.
  - symmetry. apply firstn_all2. unfold len in Hge. lia.
Qed.

(** ** Every excerpt is a run of lines *)

Lemma sublist_In {A} (i j : nat) (l : list A) (x : A) :
  In x (sublist i j l) -> In x l.
Proof.
  unfold sublist. intros H.
  rewrite <- (firstn_skipn i l). apply in_or_app. right.
  rewrite <- (firstn_skipn (j - i) (skipn i l)). apply in_or_app. now left.
Qed.

Lemma firstn_sublist {A} (k i j : nat) (l : list A) :
  firstn k (sublist i j l) = sublist i (i + Nat.min k (j - i)) l.
Proof.
  unfold sublist. rewrite firstn_firstn. f_equal. lia.
Qed.

Lemma firstn_as_sublist {A} (k : nat) (l : list A) :
  firstn k l = sublist 0 (Nat.min k (List.length l)) l.
Proof.
  rewrite sublist_prefix.
  destruct (Nat.le_gt_cases k (List.length l)).
  - now rewrite Nat.min_l.
  - rewrite Nat.min_r, firstn_all by lia. apply firstn_all2. lia.
Qed.

Lemma nested_slice {A} (l : list A) (i j : nat) (lo hi : option Z) :
  (i <= j <= List.length l)%nat ->
  exists i' j', (i' <= j' <= List.length l)%nat /\
                py_slice (sublist i j l) lo hi = sublist i' j' l.
Proof.
  intros Hij.
  destruct (py_slice_sublist (sublist i j l) lo hi) as (i0 & j0 & Hb & ->).
  rewrite sublist_length in Hb by lia.
  exists (i + i0)%nat, (i + j0)%nat. split; [lia |].
  apply sublist_sublist. lia.
Qed.

Lemma extract_is_slice (text : str) (start_line : Z) (class_name : str)
    (loc_limit : Z) :
  exists i j, (i <= j <= List.length (splitlines text))%nat /\
    extract_class_block text start_line class_name loc_limit
    = Ok (join newline (sublist i j (splitlines text))).
Proof.
  destruct (terminal_state_cases text start_line class_name)
    as [[Hout _] | [Hin [[Hfind _] | (h & Hfind & Hh & [[Hbr _] | (e & Hbr & He & _)])]]].
  - rewrite extract_out_of_range by assumption.
    destruct (py_slice_sublist (splitlines text) None (Some loc_limit))
      as (i & j & Hb & ->). now exists i, j.
  - rewrite extract_no_header by assumption.
    destruct (py_slice_sublist (splitlines text)
                (Some (window_lo (start_line - 1)))
                (Some (Z.min (len (splitlines text))
                             (window_lo (start_line - 1) + loc_limit))))
      as (i & j & Hb & ->). now exists i, j.
  - rewrite (extract_no_end _ _ _ _ h) by assumption.
    destruct (py_slice_sublist (splitlines text) (Some h)
                (Some (Z.min (len (splitlines text)) (h + loc_limit))))
      as (i & j & Hb & ->). now exists i, j.
  - rewrite (extract_block _ _ _ _ h e) by assumption.
    rewrite py_slice_bounds by lia.
    destruct (_ >? loc_limit).
    + destruct (nested_slice (splitlines text) (Z.to_nat h) (Z.to_nat (e + 1))
                  None (Some loc_limit)) as (i & j & Hb & ->);
        [unfold len in *; lia |]. now exists i, j.
    + exists (Z.to_nat h), (Z.to_nat (e + 1)). split; [unfold len in *; lia |].
      reflexivity.
Qed.

Lemma extract_is_bounded_slice (text : str) (start_line : Z) (class_name : str)
    (loc_limit : Z) :
  1 <= loc_limit ->
  exists i j, (i <= j <= List.length (splitlines text))%nat /\
    Z.of_nat (j - i) <= loc_limit /\
    (splitlines text <> [] -> (1 <= j - i)%nat) /\
    extract_class_block text start_line class_name loc_limit
    = Ok (join newline (sublist i j (splitlines text))).
Proof.
  intros Hlim.
  destruct (terminal_state_cases text start_line class_name)
    as [[Hout _] | [Hin [[Hfind _] | (h & Hfind & Hh & [[Hbr _] | (e & Hbr & He & _)])]]].
  - rewrite extract_out_of_range by assumption.
    rewrite py_slice_firstn, firstn_as_sublist by lia.
    exists 0%nat, (Nat.min (Z.to_nat loc_limit) (List.length (splitlines text))).
    split; [lia |]. split; [lia |]. split; [| reflexivity].
    intros Hne. destruct (splitlines text); [congruence | simpl List.length; lia].
  - rewrite extract_no_header by assumption.
    assert (0 <= window_lo (start_line - 1) < len (splitlines text))
      by (unfold window_lo; lia).
    destruct (py_slice_window (splitlines text) (window_lo (start_line - 1)) loc_limit)
      as (j & Hj & Hw & ->); [lia | lia |].
    exists (Z.to_nat (window_lo (start_line - 1))), j.
    split; [lia |]. split; [lia |]. split; [lia | reflexivity].
  - rewrite (extract_no_end _ _ _ _ h) by assumption.
    destruct (py_slice_window (splitlines text) h loc_limit)
      as (j & Hj & Hw & ->); [lia | lia |].
    exists (Z.to_nat h), j.
    split; [lia |]. split; [lia |]. split; [lia | reflexivity].
  - rewrite (extract_block _ _ _ _ h e) by assumption.
    rewrite block_truncation, firstn_sublist by lia.
    exists (Z.to_nat h),
      (Z.to_nat h + Nat.min (Z.to_nat loc_limit) (Z.to_nat e + 1 - Z.to_nat h))%nat.
    unfold len in *.
    split; [lia |]. split; [lia |]. split; [lia | reflexivity].
Qed.

(** Whenever a header is found, the excerpt begins with the header line. *)
Lemma excerpt_starts_with_header (text : str) (start_line : Z)
    (class_name : str) (loc_limit h : Z) :
  1 <= loc_limit ->
  1 <= start_line <= len (splitlines text) ->
  find_header (simple_name class_name) (splitlines text) (start_line - 1)
  = Ok (Some h) ->
  exists line rest,
    nth_error (splitlines text) (Z.to_nat h) = Some line /\
    extract_class_block text start_line class_name loc_limit
    = Ok (join newline (line :: rest)).
Proof.
  intros Hlim Hin Hfind.
  pose proof (find_header_bounds _ _ _ _ Hfind) as [Hh _].
  destruct (@py_getitem_in_range _ (splitlines text) h Hh) as (line & Hnth & _).
  exists line.
  destruct (match_braces (splitlines text) (py_range h (len (splitlines text))) 0 false)
    as [[e |] | ex] eqn:Hbr.
  - pose proof (match_braces_end_bounds _ _ _ _ _ (proj1 Hh) Hbr) as He.
    rewrite (extract_block _ _ _ _ h e) by assumption.
    rewrite block_truncation, firstn_sublist by lia.
    eexists. split; [exact Hnth |].
    rewrite (sublist_cons_nth _ _ _ line Hnth) by lia. reflexivity.
  - rewrite (extract_no_end _ _ _ _ h) by assumption.
    destruct (py_slice_window (splitlines text) h loc_limit)
      as (j & Hj & Hw & ->); [lia | lia |].
    eexists. split; [exact Hnth |].
    rewrite (sublist_cons_nth _ _ _ line Hnth) by lia. reflexivity.
  - rewrite match_braces_stream in Hbr by lia. discriminate.
Qed.

(** ** The line splitter *)

Lemma splitlines_nonempty (text : str) : text <> [] -> splitlines text <> [].
Proof.
  destruct text as [| c rest]; [congruence |]. intros _. simpl.
  destruct (is_linebreak c); [discriminate |].
  destruct (splitlines rest); discriminate.
Qed.

Lemma splitlines_break_free_aux (m : nat) :
  forall text, (List.length text <= m)%nat ->
  forall line, In line (splitlines text) -> break_free line.
Proof.
  induction m as [| m IH]; intros text Hlen line Hin.
  - destruct text; [contradiction | simpl in Hlen; lia].
  - destruct text as [| c rest]; [contradiction |].
    simpl in Hlen. simpl in Hin.
    destruct (is_linebreak c) eqn:Ec.
    + destruct Hin as [<- | Hin]; [intros x [] |].
      destruct rest as [| c' rest']; [contradiction |].
      simpl in Hlen.
      destruct (N.eqb c CR && N.eqb c' LF);
        [apply (IH rest') | apply (IH (c' :: rest'))]; simpl; auto; lia.
    + assert (Hrest : forall l, In l (splitlines rest) -> break_free l)
        by (apply IH; lia).
      destruct (splitlines rest) as [| l ls].
      * destruct Hin as [<- | []]. intros x [<- | []]. exact Ec.
      * destruct Hin as [<- | Hin].
        -- intros x [<- | Hx]; [exact Ec | apply (Hrest l); simpl; auto].
        -- apply Hrest. simpl. auto.
Qed.

Lemma splitlines_break_free (text : str) (line : str) :
  In line (splitlines text) -> break_free line.
Proof. apply (splitlines_break_free_aux (List.length text)). lia. Qed.

Lemma splitlines_line_newline (line rest : str) :
  break_free line ->
  splitlines (line ++ LF :: rest) = line :: splitlines rest.
Proof.
  induction line as [| c line IH]; intros Hfree.
  - simpl. destruct rest; reflexivity.
  - simpl. rewrite (Hfree c) by (simpl; auto).
    rewrite IH; [reflexivity |]. intros x Hx. apply Hfree. simpl. auto.
Qed.

Lemma splitlines_single_line (line : str) :
  break_free line -> (List.length (splitlines line) <= 1)%nat.
Proof.
  induction line as [| c line IH]; intros Hfree; simpl; [lia |].
  rewrite (Hfree c) by (simpl; auto).
  assert (Hline : break_free line) by (intros x Hx; apply Hfree; simpl; auto).
  specialize (IH Hline).
  destruct (splitlines line) as [| l ls]; simpl in *; lia.
Qed.

(** Joining break-free lines and splitting again never gives more lines. *)
Lemma line_count_join (ls : list str) :
  (forall line, In line ls -> break_free line) ->
  line_count (join newline ls) <= len ls.
Proof.
  unfold line_count, len. intros Hfree.
  induction ls as [| p ls IH]; [simpl; lia |].
  destruct ls as [| q ls].
  - simpl join. pose proof (splitlines_single_line p (Hfree p (or_introl eq_refl))).
    simpl List.length. lia.
  - change (join newline (p :: q :: ls))
      with (p ++ LF :: join newline (q :: ls)).
    rewrite splitlines_line_newline by (apply Hfree; simpl; auto).
    specialize (IH (fun l Hl => Hfree l (or_intror Hl))).
    simpl List.length in *. lia.
Qed.

(** An empty join of a non-empty run is the join of one empty line. *)
Lemma join_empty (ls : list str) :
  join newline ls = [] -> ls = [] \/ ls = [[]].
Proof.
  destruct ls as [| p [| q ls]]; simpl; auto.
  - intros ->. now right.
  - intros H. apply app_eq_nil in H. destruct H as [_ H]. discriminate.
Qed.

(** ** The header pattern *)

Lemma strip_prefix_spec (p s rest : str) :
  strip_prefix p s = Some rest <-> s = p ++ rest.
Proof.
  revert s. induction p as [| x p IH]; intros s; simpl.
  - split; congruence.
  - destruct s as [| y s]; [split; discriminate |].
    destruct (N.eqb_spec x y) as [-> | Hne].
    + rewrite IH. split; congruence.
    + split; [discriminate | congruence].
Qed.

Lemma last_read_cons (before : option char) (c : char) (read : str) :
  last_read before (c :: read) = last_read (Some c) read.
Proof.
  unfold last_read. simpl. destruct (rev read); reflexivity.
Qed.

Lemma last_cons_default {A} (l : list A) :
  forall x d, last (x :: l) d = last l x.
Proof.
  induction l as [| y l IH]; intros x d; [reflexivity |].
  change (last (x :: y :: l) d) with (last (y :: l) d). now rewrite !IH.
Qed.

Lemma last_read_last (c : char) (read : str) :
  last_read (Some c) read = Some (last read c).
Proof.
  revert c. induction read as [| x read IH]; intros c; [reflexivity |].
  now rewrite last_read_cons, IH, last_cons_default.
Qed.

Lemma last_read_None (read : str) : last_read None read = hd_error (rev read).
Proof. unfold last_read. destruct (rev read); reflexivity. Qed.

Lemma spaces_name_spec (name s : str) :
  spaces_name name s = true <->
  exists ws post,
    ws <> [] /\ forallb is_space ws = true /\ s = ws ++ name ++ post /\
    word_boundary (hd_error (rev (ws ++ name))) (hd_error post) = true.
Proof.
  split.
  - induction s as [| c s IH]; simpl; [discriminate |].
    intros H. apply andb_true_iff in H. destruct H as [Hc H].
    apply orb_true_iff in H. destruct H as [H | H].
    + unfold name_boundary in H.
      destruct (strip_prefix name s) as [post |] eqn:E; [| discriminate].
      apply strip_prefix_spec in E. subst s.
      exists [c], post. simpl forallb. rewrite Hc.
      repeat split; try discriminate.
      change ([c] ++ name) with (c :: name).
      now rewrite <- last_read_None, last_read_cons, last_read_last.
    + destruct (IH H) as (ws & post & Hne & Hws & -> & Hb).
      exists (c :: ws), post. simpl forallb. rewrite Hc, Hws.
      repeat split; try discriminate.
      rewrite <- last_read_None in *.
      change ((c :: ws) ++ name) with (c :: (ws ++ name)).
      rewrite last_read_cons.
      destruct ws as [| w ws]; [congruence |].
      change ((w :: ws) ++ name) with (w :: (ws ++ name)) in *.
      now rewrite last_read_cons in *.
  - intros (ws & post & Hne & Hws & -> & Hb). revert Hne Hws Hb.
    induction ws as [| c ws IH]; [congruence |]. intros _ Hws Hb.
    simpl forallb in Hws. apply andb_true_iff in Hws. destruct Hws as [Hc Hws].
    change ((c :: ws) ++ name ++ post) with (c :: (ws ++ name ++ post)).
    cbn [spaces_name]. rewrite Hc. cbn [andb].
    rewrite <- last_read_None in Hb.
    change ((c :: ws) ++ name) with (c :: (ws ++ name)) in Hb.
    rewrite last_read_cons in Hb.
    destruct ws as [| w ws].
    + unfold name_boundary. cbn [app] in *.
      rewrite (proj2 (strip_prefix_spec name (name ++ post) post) eq_refl).
      now rewrite last_read_last in Hb; rewrite Hb.
    + rewrite IH; [apply orb_true_r | discriminate | assumption |].
      rewrite <- last_read_None.
      change ((w :: ws) ++ name) with (w :: (ws ++ name)) in *.
      now rewrite last_read_cons in *.
Qed.

Lemma keywords_nonempty (kw : str) : In kw keywords -> kw <> [].
Proof. intros [<- | [<- | [<- | []]]]; discriminate. Qed.

Lemma hd_error_app_nonempty {A} (l1 l2 : list A) :
  l1 <> [] -> hd_error (l1 ++ l2) = hd_error l1.
Proof. destruct l1; [congruence | reflexivity]. Qed.

Lemma match_here_spec (name : str) (before : option char) (s : str) :
  match_here name before s = true <->
  exists kw ws post,
    In kw keywords /\ ws <> [] /\ forallb is_space ws = true /\
    s = kw ++ ws ++ name ++ post /\
    word_boundary before (hd_error kw) = true /\
    word_boundary (hd_error (rev (ws ++ name))) (hd_error post) = true.
Proof.
  unfold match_here. rewrite andb_true_iff, existsb_exists. split.
  - intros (Hb & kw & Hkw & H).
    destruct (strip_prefix kw s) as [rest |] eqn:E; [| discriminate].
    apply strip_prefix_spec in E. subst s.
    apply spaces_name_spec in H. destruct H as (ws & post & Hne & Hws & -> & Hb').
    exists kw, ws, post.
    rewrite hd_error_app_nonempty in Hb by now apply keywords_nonempty.
    repeat split; assumption.
  - intros (kw & ws & post & Hkw & Hne & Hws & -> & Hb & Hb').
    rewrite hd_error_app_nonempty by now apply keywords_nonempty.
    split; [assumption |]. exists kw. split; [assumption |].
    rewrite (proj2 (strip_prefix_spec kw _ _) eq_refl).
    apply spaces_name_spec. now exists ws, post.
Qed.

Lemma search_from_spec (name : str) (s : str) :
  forall before,
  search_from name before s = true <->
  exists pre rest, s = pre ++ rest /\
                   match_here name (last_read before pre) rest = true.
Proof.
  induction s as [| c s IH]; intros before; cbn [search_from];
    rewrite orb_true_iff.
  - split.
    + intros [H | H]; [| discriminate]. now exists [], [].
    + intros (pre & rest & E & H). symmetry in E. apply app_eq_nil in E.
      destruct E as [-> ->]. now left.
  - rewrite IH. split.
    + intros [H | (pre & rest & -> & H)].
      * now exists [], (c :: s).
      * exists (c :: pre), rest. now rewrite last_read_cons.
    + intros (pre & rest & E & H). destruct pre as [| x pre].
      * left. simpl in E. now subst rest.
      * right. injection E as <- ->. exists pre, rest.
        now rewrite last_read_cons in H.
Qed.

Lemma header_pat_search_spec (name line : str) :
  header_pat_search name line = true <-> header_occurrence name line.
Proof.
  unfold header_pat_search, header_occurrence. rewrite search_from_spec. split.
  - intros (pre & rest & -> & H). apply match_here_spec in H.
    destruct H as (kw & ws & post & Hkw & Hne & Hws & -> & Hb & Hb').
    exists pre, kw, ws, post. rewrite <- last_read_None. now repeat split.
  - intros (pre & kw & ws & post & -> & Hkw & Hne & Hws & Hb & Hb').
    exists pre, (kw ++ ws ++ name ++ post). split; [reflexivity |].
    apply match_here_spec. exists kw, ws, post.
    rewrite last_read_None. now repeat split.
Qed.

(** The simple name of a dotted name is what follows the last dot. *)
Lemma split_char_no_sep (sep : char) (seg : str) :
  ~ In sep seg -> split_char sep seg = [seg].
Proof.
  induction seg as [| c seg IH]; intros Hno; [reflexivity |].
  simpl. destruct (N.eqb_spec c sep) as [-> | _];
    [exfalso; apply Hno; now left |].
  rewrite IH by (intros Hin; apply Hno; now right). reflexivity.
Qed.

Lemma split_char_app (sep : char) (qual seg : str) :
  split_char sep (qual ++ sep :: seg) = split_char sep qual ++ split_char sep seg.
Proof.
  induction qual as [| c qual IH].
  - simpl. now rewrite N.eqb_refl.
  - simpl app. cbn [split_char]. rewrite IH.
    destruct (N.eqb c sep); [reflexivity |].
    pose proof (split_char_nonempty sep qual) as Hne.
    destruct (split_char sep qual) as [| p ps]; [congruence | reflexivity].
Qed.

Lemma simple_name_qualified (qual seg : str) :
  ~ In DOT seg -> simple_name (qual ++ DOT :: seg) = seg.
Proof.
  intros Hno. unfold simple_name.
  rewrite split_char_app, (split_char_no_sep DOT seg Hno). apply last_last.
Qed.

Lemma simple_name_unqualified (seg : str) :
  ~ In DOT seg -> simple_name seg = seg.
Proof.
  intros Hno. unfold simple_name. now rewrite split_char_no_sep.
Qed.

(** * The claims *)

(** C1 (exact match, state D).  Whenever the reported line is in range, the
    header search answers a header line [h] and the brace matcher answers a
    closing line [e], the extractor returns the newline-join of the lines
    [h..e] inclusive, cut to the first [loc_limit] lines.  In the scenario
    of a 20-line file with [class Foo {] on line 10, the matching [}] alone
    on line 18, reported line 12 and type name [Foo], the excerpt is lines
    10 to 18 verbatim. *)
Theorem exact_match_block :
  (forall text start_line class_name loc_limit h e,
      1 <= start_line <= len (splitlines text) ->
      find_header (simple_name class_name) (splitlines text) (start_line - 1)
      = Ok (Some h) ->
      match_braces (splitlines text) (py_range h (len (splitlines text))) 0 false
      = Ok (Some e) ->
      0 <= loc_limit ->
      extract_class_block text start_line class_name loc_limit
      = Ok (join newline
              (firstn (Z.to_nat loc_limit)
                 (sublist (Z.to_nat h) (Z.to_nat e + 1) (splitlines text)))))
  /\
  (len (splitlines file20) = 20 /\
   nth_error (splitlines file20) 9 = Some (py "public class Foo {") /\
   nth_error (splitlines file20) 17 = Some (py "}") /\
   find_header (simple_name (py "Foo")) (splitlines file20) (12 - 1) = Ok (Some 9) /\
   match_braces (splitlines file20) (py_range 9 20) 0 false = Ok (Some 17) /\
   join newline (sublist 9 18 (splitlines file20)) = file20_lines_10_18 /\
   extract_class_block file20 12 (py "Foo") 400 = Ok file20_lines_10_18).
Proof.
  split.
  - intros text start_line class_name loc_limit h e Hin Hfind Hbr Hlim.
    rewrite (extract_block _ _ _ _ h e) by assumption.
    pose proof (find_header_bounds _ _ _ _ Hfind) as [Hh _].
    pose proof (match_braces_end_bounds _ _ _ _ _ (proj1 Hh) Hbr) as He.
    now rewrite block_truncation by lia.
  - repeat split; vm_compute; reflexivity.
Qed.

(** C5 (out-of-range fallback, state A).  For every text and every reported
    line outside [[1, line_count]], whatever the type name, the extractor
    returns the newline-join of [lines[0 : loc_limit]]: the first
    [loc_limit] lines of the file, all of them if the file is shorter. *)
Theorem out_of_range_fallback (text : str) (start_line : Z) (class_name : str)
    (loc_limit : Z) :
  start_line < 1 \/ len (splitlines text) < start_line ->
  extract_class_block text start_line class_name loc_limit
  = Ok (join newline (py_slice (splitlines text) (Some 0) (Some loc_limit))) /\
  (0 <= loc_limit ->
   extract_class_block text start_line class_name loc_limit
   = Ok (join newline (firstn (Z.to_nat loc_limit) (splitlines text))) /\
   (len (splitlines text) <= loc_limit ->
    extract_class_block text start_line class_name loc_limit
    = Ok (join newline (splitlines text)))).
Proof.
  intros Hout. rewrite extract_out_of_range, py_slice_from_0 by assumption.
  split; [reflexivity |]. intros Hlim. rewrite py_slice_firstn by assumption.
  split; [reflexivity |]. intros Hshort.
  rewrite firstn_all2 by (unfold len in Hshort; lia). reflexivity.
Qed.

(** C6 (header-not-found fallback, state B).  When the reported line is in
    range and no line of the file matches the header pattern for the simple
    type name, the extractor returns the newline-join of
    [lines[max(0, anchor-5) : max(0, anchor-5) + loc_limit]] with
    [anchor = start_line - 1]. *)
Theorem header_not_found_fallback (text : str) (start_line : Z)
    (class_name : str) (loc_limit : Z) :
  1 <= start_line <= len (splitlines text) ->
  (forall k line, nth_error (splitlines text) k = Some line ->
                  header_pat_search (simple_name class_name) line = false) ->
  let anchor := start_line - 1 in
  extract_class_block text start_line class_name loc_limit
  = Ok (join newline
          (py_slice (splitlines text) (Some (Z.max 0 (anchor - 5)))
             (Some (Z.max 0 (anchor - 5) + loc_limit)))).
Proof.
  intros Hin Hno anchor.
  rewrite extract_no_header by (try assumption; now apply find_header_none).
  now rewrite py_slice_min_hi.
Qed.

(** C2 (brace-depth matcher).  From the header line on, the matcher reads
    the characters left to right, line by line, with [depth] starting at 0
    and [opened] at false; [{] adds one to [depth] and sets [opened], [}]
    subtracts one.  Its answer is the line of the first [}] that brings
    [depth] to exactly 0 while [opened] holds, and "incomplete" if there is
    none.  Nothing after that character is examined: the rest of its line
    and the lines below can be replaced freely.  The scan is over raw
    characters, so a brace inside a literal or a comment counts like any
    other. *)
Theorem brace_matcher_semantics :
  (forall lines h,
      0 <= h ->
      let cs := chars_from lines h in
      let found := match_braces lines (py_range h (len lines)) 0 false in
      found = Ok (spec_brace_end lines h) /\
      (forall e,
          found = Ok (Some e) <->
          exists k c, nth_error cs k = Some (e, c) /\ closes_at cs k = true /\
                      forall j, (j < k)%nat -> closes_at cs j = false) /\
      (found = Ok None <-> forall k, closes_at cs k = false) /\
      (forall e,
          found = Ok (Some e) ->
          exists pre post,
            nth_error lines (Z.to_nat e) = Some (pre ++ RBRACE :: post) /\
            forall post' after,
              let lines' :=
                firstn (Z.to_nat e) lines ++ (pre ++ RBRACE :: post') :: after in
              match_braces lines' (py_range h (len lines')) 0 false = Ok (Some e)))
  /\
  (forall cs,
      run_braces cs
      = (Z.of_nat (count_occ N.eq_dec cs LBRACE)
         - Z.of_nat (count_occ N.eq_dec cs RBRACE),
         existsb (fun c => N.eqb c LBRACE) cs))
  /\
  match_braces literal_brace_lines (py_range 0 (len literal_brace_lines)) 0 false
  = Ok (Some 1).
Proof.
  split; [| split; [| vm_compute; reflexivity]].
  - intros lines h Hh cs found. subst cs found.
    rewrite match_braces_stream by assumption. unfold spec_brace_end, closes_at.
    split; [reflexivity |]. split; [| split].
    + intros e. rewrite <- first_close_some. split; congruence.
    + rewrite <- first_close_none. split; congruence.
    + intros e He. rewrite <- match_braces_stream in He by assumption.
      exact (match_braces_prefix_only lines e h 0 false Hh He).
  - intros cs. unfold run_braces. rewrite run_from_counts. reflexivity.
Qed.

(** C3 (header search order).  For an in-range reported line, the locator
    first scans the local window [[max(0, anchor-5), min(n, anchor+10))]
    upwards and answers the first matching index; only when no line of the
    window matches does it scan the whole file from index 0 and answer the
    first match.  With the first header for the name on line 50 and reported
    line 1, the window gives nothing, the whole-file scan finds line 50 and
    the excerpt starts with that line. *)
Theorem header_search_order :
  (forall name lines start_idx,
      0 <= start_idx < len lines ->
      let matches := line_matches name lines in
      let lo := Z.max 0 (start_idx - 5) in
      let hi := Z.min (len lines) (start_idx + 10) in
      (forall h, first_in matches lo hi h ->
                 find_header name lines start_idx = Ok (Some h)) /\
      ((forall j, lo <= j < hi -> matches j = false) ->
       search_window name lines (py_range lo hi) = Ok None /\
       (forall h, first_in matches 0 (len lines) h ->
                  find_header name lines start_idx = Ok (Some h)) /\
       ((forall j, 0 <= j < len lines -> matches j = false) ->
        find_header name lines start_idx = Ok None)))
  /\
  (forall text class_name loc_limit,
      1 <= loc_limit ->
      first_in (line_matches (simple_name class_name) (splitlines text))
        0 (len (splitlines text)) 49 ->
      find_header (simple_name class_name) (splitlines text) (1 - 1) = Ok (Some 49) /\
      exists line rest,
        nth_error (splitlines text) 49 = Some line /\
        extract_class_block text 1 class_name loc_limit
        = Ok (join newline (line :: rest)))
  /\
  (len (splitlines file60) = 60 /\
   nth_error (splitlines file60) 49 = Some (py "final class Bar {") /\
   search_window (py "Bar") (splitlines file60) (py_range 0 10) = Ok None /\
   find_header (py "Bar") (splitlines file60) 0 = Ok (Some 49) /\
   extract_class_block file60 1 (py "Bar") 400 = Ok file60_lines_50_53).
Proof.
  assert (Hgen : forall name lines start_idx,
      (forall h, first_in (line_matches name lines) (window_lo start_idx)
                   (window_hi (len lines) start_idx) h ->
                 find_header name lines start_idx = Ok (Some h)) /\
      ((forall j, window_lo start_idx <= j < window_hi (len lines) start_idx ->
                  line_matches name lines j = false) ->
       search_window name lines
         (py_range (window_lo start_idx) (window_hi (len lines) start_idx))
       = Ok None /\
       (forall h, first_in (line_matches name lines) 0 (len lines) h ->
                  find_header name lines start_idx = Ok (Some h)) /\
       ((forall j, 0 <= j < len lines -> line_matches name lines j = false) ->
        find_header name lines start_idx = Ok None))).
  { intros name lines start_idx. rewrite find_header_find. split.
    - intros h Hfirst. apply find_py_range_first in Hfirst. now rewrite Hfirst.
    - intros Hnone. apply find_py_range_none in Hnone.
      rewrite search_window_find by (unfold window_lo, window_hi; lia).
      rewrite Hnone. split; [reflexivity |]. split.
      + intros h Hfirst. apply find_py_range_first in Hfirst. now rewrite Hfirst.
      + intros Hall. apply find_py_range_none in Hall. now rewrite Hall. }
  split; [| split].
  - intros name lines start_idx _. exact (Hgen name lines start_idx).
  - intros text class_name loc_limit Hlim Hfirst.
    assert (Hlen : 49 < len (splitlines text)) by (destruct Hfirst; lia).
    assert (Hfind : find_header (simple_name class_name) (splitlines text) (1 - 1)
                    = Ok (Some 49)).
    { apply (Hgen (simple_name class_name) (splitlines text) (1 - 1));
        [| exact Hfirst].
      intros j Hj. apply Hfirst. unfold window_lo, window_hi in Hj. lia. }
    split; [exact Hfind |].
    destruct (excerpt_starts_with_header text 1 class_name loc_limit 49)
      as (line & rest & Hnth & Hex); [lia | lia | exact Hfind |].
    now exists line, rest.
  - repeat split; vm_compute; reflexivity.
Qed.

(** C4 (header pattern and simple name).  A line matches exactly when it
    contains one of the keywords [class], [interface], [enum] standing at a
    word boundary, then white space, then the name, then a word boundary;
    and the name looked for is the last dot-separated segment of the type
    name.  So [Outer.Inner] matches a header that declares [Inner] and not
    one that declares [Outer], and [class FooBar] does not match [Foo]. *)
Theorem header_pattern_simple_name :
  (forall name line,
      header_pat_search name line = true <-> header_occurrence name line) /\
  (forall class_name,
      py_getitem (split_char DOT class_name) (-1) = Ok (simple_name class_name)) /\
  (forall qual seg, ~ In DOT seg -> simple_name (qual ++ DOT :: seg) = seg) /\
  (forall seg, ~ In DOT seg -> simple_name seg = seg) /\
  (simple_name (py "Outer.Inner") = py "Inner" /\
   header_pat_search (simple_name (py "Outer.Inner"))
     (py "  static class Inner {") = true /\
   header_pat_search (simple_name (py "Outer.Inner"))
     (py "public class Outer {") = false /\
   header_pat_search (simple_name (py "Foo")) (py "class Foo") = true /\
   header_pat_search (simple_name (py "Foo")) (py "class FooBar") = false /\
   header_pat_search (simple_name (py "Foo")) (py "subclass Foo") = false /\
   header_pat_search (simple_name (py "Foo")) (py "classFoo") = false).
Proof.
  split; [exact header_pat_search_spec |].
  split; [exact simple_name_getitem |].
  split; [exact simple_name_qualified |].
  split; [exact simple_name_unqualified |].
  repeat split; vm_compute; reflexivity.
Qed.

Lemma nth_error_sublist {A} (i j k : nat) (l : list A) :
  (k < j - i)%nat -> nth_error (sublist i j l) k = nth_error l (i + k).
Proof.
  intros Hk. unfold sublist. rewrite nth_error_firstn.
  destruct (Nat.ltb_spec k (j - i)); [| lia]. apply nth_error_skipn.
Qed.

(** C7 (boundedness and non-emptiness), as the code has it.  For
    [loc_limit >= 1] the excerpt is the newline-join of a run of at most
    [loc_limit] lines of the file, so its line count is at most
    [loc_limit]; the run holds at least one line whenever the text is not
    empty.  The excerpt itself is the empty string exactly when that run is
    one empty line. *)
Theorem excerpt_bounded (text : str) (start_line : Z) (class_name : str)
    (loc_limit : Z) :
  1 <= loc_limit ->
  exists i j,
    (i <= j <= List.length (splitlines text))%nat /\
    extract_class_block text start_line class_name loc_limit
    = Ok (join newline (sublist i j (splitlines text))) /\
    len (sublist i j (splitlines text)) <= loc_limit /\
    line_count (join newline (sublist i j (splitlines text))) <= loc_limit /\
    (text <> [] -> 1 <= len (sublist i j (splitlines text))) /\
    (text <> [] ->
     (join newline (sublist i j (splitlines text)) = [] <->
      sublist i j (splitlines text) = [[]])).
Proof.
  intros Hlim.
  destruct (extract_is_bounded_slice text start_line class_name loc_limit Hlim)
    as (i & j & Hij & Hw & Hne & Hex).
  exists i, j.
  assert (Hlen : len (sublist i j (splitlines text)) = Z.of_nat (j - i))
    by (unfold len; rewrite sublist_length; lia).
  split; [exact Hij |]. split; [exact Hex |]. split; [lia |]. split; [| split].
  - etransitivity; [apply line_count_join | lia].
    intros line Hline. apply (splitlines_break_free text).
    now apply sublist_In in Hline.
  - intros Htext. apply splitlines_nonempty in Htext. specialize (Hne Htext). lia.
  - intros Htext. apply splitlines_nonempty in Htext. specialize (Hne Htext).
    split; [| now intros ->].
    intros Hempty. destruct (join_empty _ Hempty) as [Hnil | Hone]; [| exact Hone].
    rewrite Hnil in Hlen. unfold len in Hlen. simpl in Hlen. lia.
Qed.

(** C8 (strategy tag), as the code has it.  Every record that [main] emits
    carries the excerpt returned by the extractor and the one fixed tag
    [line_based_class_block], whichever search or fallback path produced the
    excerpt; [case_id] is copied from the row. *)
Theorem strategy_tag_constant (r : row) (java_path code : str)
    (start_line loc_limit : Z) :
  exists excerpt c,
    extract_class_block code start_line (r_class_name r) loc_limit = Ok excerpt /\
    build_case r java_path code start_line loc_limit = Ok c /\
    code_excerpt c = excerpt /\
    excerpt_strategy c = py "line_based_class_block" /\
    case_id c = r_case_id r.
Proof.
  destruct (extract_is_slice code start_line (r_class_name r) loc_limit)
    as (i & j & _ & Hex).
  unfold build_case. rewrite Hex. cbn [bind].
  eexists. eexists. split; [reflexivity |]. split; [reflexivity |].
  repeat split.
Qed.

(** C9 (totality, graceful degradation).  On every input the extractor
    returns a string and raises nothing, through exactly one of its four
    returns; an out-of-range line, a missing header and an unterminated
    block each end in a window of lines chosen by position. *)
Theorem extractor_total (text : str) (start_line : Z) (class_name : str)
    (loc_limit : Z) :
  let lines := splitlines text in
  let n := len lines in
  let name := simple_name class_name in
  exists s,
    extract_class_block text start_line class_name loc_limit = Ok s /\
    ((terminal_state text start_line class_name = Ok StateA /\
      (start_line < 1 \/ n < start_line) /\
      s = join newline (py_slice lines (Some 0) (Some loc_limit)))
     \/
     (terminal_state text start_line class_name = Ok StateB /\
      1 <= start_line <= n /\
      find_header name lines (start_line - 1) = Ok None /\
      s = join newline
            (py_slice lines (Some (Z.max 0 (start_line - 1 - 5)))
               (Some (Z.max 0 (start_line - 1 - 5) + loc_limit))))
     \/
     (exists h,
         terminal_state text start_line class_name = Ok StateC /\
         1 <= start_line <= n /\
         find_header name lines (start_line - 1) = Ok (Some h) /\
         match_braces lines (py_range h n) 0 false = Ok None /\
         s = join newline (py_slice lines (Some h) (Some (h + loc_limit))))
     \/
     (exists h e,
         terminal_state text start_line class_name = Ok StateD /\
         1 <= start_line <= n /\
         find_header name lines (start_line - 1) = Ok (Some h) /\
         match_braces lines (py_range h n) 0 false = Ok (Some e) /\
         h <= e < n /\
         s = join newline
               (if len (py_slice lines (Some h) (Some (e + 1))) >? loc_limit
                then py_slice (py_slice lines (Some h) (Some (e + 1)))
                       None (Some loc_limit)
                else py_slice lines (Some h) (Some (e + 1))))).
Proof.
  intros lines n name. subst lines n name.
  destruct (terminal_state_cases text start_line class_name)
    as [[Hout HA] | [Hin [[Hfind HB] | (h & Hfind & Hh & [[Hbr HC] | (e & Hbr & He & HD)])]]].
  - eexists. split; [now apply extract_out_of_range |].
    left. rewrite py_slice_from_0. auto.
  - eexists. split; [now apply extract_no_header |].
    right; left. rewrite py_slice_min_hi. unfold window_lo. auto.
  - eexists. split; [now apply (extract_no_end _ _ _ _ h) |].
    right; right; left. exists h. rewrite py_slice_min_hi. auto.
  - eexists. split; [now apply (extract_block _ _ _ _ h e) |].
    right; right; right. exists h, e. repeat split; auto; lia.
Qed.

(** C10 (contiguous slice).  On every input and every path, the returned
    string is the newline-join of a contiguous slice [lines[i:j]],
    [0 <= i <= j <= line_count], of the line-split of the text: its lines
    are lines [i], [i+1], ... of the input, unchanged and in order. *)
Theorem excerpt_contiguous_slice (text : str) (start_line : Z)
    (class_name : str) (loc_limit : Z) :
  exists i j,
    (i <= j <= List.length (splitlines text))%nat /\
    extract_class_block text start_line class_name loc_limit
    = Ok (join newline (sublist i j (splitlines text))) /\
    List.length (sublist i j (splitlines text)) = (j - i)%nat /\
    forall k, (k < j - i)%nat ->
              nth_error (sublist i j (splitlines text)) k
              = nth_error (splitlines text) (i + k).
Proof.
  destruct (extract_is_slice text start_line class_name loc_limit)
    as (i & j & Hij & Hex).
  exists i, j. split; [exact Hij |]. split; [exact Hex |].
  split; [apply sublist_length; lia |].
  intros k Hk. now apply nth_error_sublist.
Qed.

(** * Further properties of [extract_class_block] *)

Lemma firstn_min_length {A} (k : nat) (l : list A) :
  firstn (Nat.min k (List.length l)) l = firstn k l.
Proof.
  destruct (Nat.le_gt_cases k (List.length l)).
  - now rewrite Nat.min_l.
  - rewrite Nat.min_r, firstn_all by lia. symmetry. apply firstn_all2. lia.
Qed.

(** A fallback window is the first [loc_limit] lines from its start on. *)
Lemma py_slice_window_firstn {A} (l : list A) (lo limit : Z) :
  0 <= lo <= len l -> 0 <= limit ->
  py_slice l (Some lo) (Some (Z.min (len l) (lo + limit)))
  = firstn (Z.to_nat limit) (skipn (Z.to_nat lo) l).
Proof.
  intros Hlo Hlim. rewrite py_slice_bounds by lia. unfold sublist.
  rewrite <- (firstn_min_length (Z.to_nat limit)). f_equal.
  rewrite length_skipn. unfold len in *. lia.
Qed.

(** Whatever the limit, the excerpt is the head of one run of lines that
    the limit has no part in choosing. *)
Lemma extract_truncates (text : str) (start_line : Z) (class_name : str) :
  exists run,
    (exists i j, (i <= j <= List.length (splitlines text))%nat /\
                 run = sublist i j (splitlines text)) /\
    forall loc_limit, 0 <= loc_limit ->
      extract_class_block text start_line class_name loc_limit
      = Ok (join newline (firstn (Z.to_nat loc_limit) run)).
Proof.
  assert (Hskip : forall (lines : list str) a, (a <= List.length lines)%nat ->
                    skipn a lines = sublist a (List.length lines) lines).
  { intros lines a Ha. unfold sublist. symmetry. apply firstn_all2.
    rewrite length_skipn. lia. }
  destruct (terminal_state_cases text start_line class_name)
    as [[Hout _] | [Hin [[Hfind _] | (h & Hfind & Hh & [[Hbr _] | (e & Hbr & He & _)])]]].
  - exists (splitlines text). split.
    + exists 0%nat, (List.length (splitlines text)). split; [lia |].
      exact (Hskip (splitlines text) 0%nat (Nat.le_0_l _)).
    + intros loc_limit Hlim. rewrite extract_out_of_range by assumption.
      now rewrite py_slice_firstn.
  - assert (Hlo : 0 <= window_lo (start_line - 1) <= len (splitlines text))
      by (unfold window_lo; lia).
    exists (skipn (Z.to_nat (window_lo (start_line - 1))) (splitlines text)). split.
    + exists (Z.to_nat (window_lo (start_line - 1))), (List.length (splitlines text)).
      unfold len in Hlo. split; [lia |]. apply Hskip. lia.
    + intros loc_limit Hlim. rewrite extract_no_header by assumption.
      now rewrite py_slice_window_firstn.
  - exists (skipn (Z.to_nat h) (splitlines text)). split.
    + exists (Z.to_nat h), (List.length (splitlines text)).
      unfold len in Hh. split; [lia |]. apply Hskip. lia.
    + intros loc_limit Hlim. rewrite (extract_no_end _ _ _ _ h) by assumption.
      now rewrite py_slice_window_firstn by lia.
  - exists (sublist (Z.to_nat h) (Z.to_nat e + 1) (splitlines text)). split.
    + exists (Z.to_nat h), (Z.to_nat e + 1)%nat.
      unfold len in *. split; [lia | reflexivity].
    + intros loc_limit Hlim. rewrite (extract_block _ _ _ _ h e) by assumption.
      now rewrite block_truncation by lia.
Qed.

(** X1 (state C).  When a header is found on line [h] but the braces never
    close, the excerpt is the window [lines[h : h + loc_limit]]: the header
    line and what follows it, up to [loc_limit] lines. *)
Theorem unterminated_block_fallback (text : str) (start_line : Z)
    (class_name : str) (loc_limit h : Z) :
  1 <= start_line <= len (splitlines text) ->
  find_header (simple_name class_name) (splitlines text) (start_line - 1)
  = Ok (Some h) ->
  match_braces (splitlines text) (py_range h (len (splitlines text))) 0 false
  = Ok None ->
  extract_class_block text start_line class_name loc_limit
  = Ok (join newline (py_slice (splitlines text) (Some h) (Some (h + loc_limit)))) /\
  (0 <= loc_limit ->
   extract_class_block text start_line class_name loc_limit
   = Ok (join newline
           (firstn (Z.to_nat loc_limit) (skipn (Z.to_nat h) (splitlines text))))).
Proof.
  intros Hin Hfind Hbr. rewrite (extract_no_end _ _ _ _ h) by assumption.
  pose proof (find_header_bounds _ _ _ _ Hfind) as [Hh _].
  split; [now rewrite py_slice_min_hi |].
  intros Hlim. now rewrite py_slice_window_firstn by lia.
Qed.

(** X2 (header preservation).  Whenever a header is found and
    [loc_limit >= 1], the first line of the excerpt is the header line
    itself, a line of the file that matches the header pattern. *)
Theorem header_line_first (text : str) (start_line : Z) (class_name : str)
    (loc_limit h : Z) :
  1 <= loc_limit ->
  1 <= start_line <= len (splitlines text) ->
  find_header (simple_name class_name) (splitlines text) (start_line - 1)
  = Ok (Some h) ->
  exists line rest,
    nth_error (splitlines text) (Z.to_nat h) = Some line /\
    header_pat_search (simple_name class_name) line = true /\
    extract_class_block text start_line class_name loc_limit
    = Ok (join newline (line :: rest)).
Proof.
  intros Hlim Hin Hfind.
  destruct (excerpt_starts_with_header text start_line class_name loc_limit h
              Hlim Hin Hfind) as (line & rest & Hnth & Hex).
  exists line, rest. split; [exact Hnth |]. split; [| exact Hex].
  pose proof (find_header_bounds _ _ _ _ Hfind) as [Hh Hm].
  unfold line_matches in Hm. rewrite Hnth in Hm.
  now apply andb_true_iff in Hm.
Qed.

(** X3 (the limit only truncates).  For a given text, reported line and
    type name there is one run of consecutive lines of the file such that,
    for every [loc_limit >= 0], the excerpt is the first [loc_limit] lines
    of that run: a smaller limit gives a prefix of what a larger one
    gives, and never other lines. *)
Theorem limit_only_truncates (text : str) (start_line : Z) (class_name : str) :
  exists run,
    (exists i j, (i <= j <= List.length (splitlines text))%nat /\
                 run = sublist i j (splitlines text)) /\
    forall loc_limit, 0 <= loc_limit ->
      extract_class_block text start_line class_name loc_limit
      = Ok (join newline (firstn (Z.to_nat loc_limit) run)).
Proof. exact (extract_truncates text start_line class_name). Qed.

(** X4 (limit 0).  With [loc_limit = 0] the excerpt is the empty string on
    every input; nothing is raised. *)
Theorem zero_limit_empty (text : str) (start_line : Z) (class_name : str) :
  extract_class_block text start_line class_name 0 = Ok [].
Proof.
  destruct (extract_truncates text start_line class_name) as (run & _ & H).
  now rewrite H by lia.
Qed.

(** X5 (balanced block).  When the brace matcher answers line [e], that
    line holds a [}] such that the characters read from the start of the
    header line up to and including that [}] hold as many [{] as [}], and
    at least one [{]; no earlier [}] of the scan has this property. *)
Theorem block_braces_balanced (lines : list str) (h e : Z) :
  0 <= h ->
  match_braces lines (py_range h (len lines)) 0 false = Ok (Some e) ->
  exists k,
    nth_error (chars_from lines h) k = Some (e, RBRACE) /\
    let seen := List.map snd (firstn (S k) (chars_from lines h)) in
    count_occ N.eq_dec seen LBRACE = count_occ N.eq_dec seen RBRACE /\
    (1 <= count_occ N.eq_dec seen LBRACE)%nat /\
    forall j, (j < k)%nat -> closes_at (chars_from lines h) j = false.
Proof.
  intros Hh. rewrite match_braces_stream by assumption. intros [= H].
  apply first_close_some in H. destruct H as (k & c & Hnth & Hk & Hmin).
  exists k. unfold closes_from in Hk. rewrite Hnth in Hk. cbv zeta in Hk.
  apply andb_true_iff in Hk. destruct Hk as [Hc Hk].
  apply N.eqb_eq in Hc. subst c.
  apply andb_true_iff in Hk. destruct Hk as [Ho Hd].
  rewrite run_from_counts in Ho, Hd. cbn [fst snd] in Ho, Hd.
  apply Z.eqb_eq in Hd.
  split; [exact Hnth |]. cbv zeta. split; [lia |]. split; [| exact Hmin].
  apply existsb_exists in Ho. destruct Ho as (x & Hin & Hx).
  apply N.eqb_eq in Hx. subst x.
  apply (count_occ_In N.eq_dec) in Hin. lia.
Qed.

Lemma splitlines_one_line (line : str) :
  break_free line -> splitlines line = drop_final_blank [line].
Proof.
  induction line as [| c line IH]; intros Hfree; [reflexivity |].
  simpl. rewrite (Hfree c) by (simpl; auto).
  rewrite IH by (intros x Hx; apply Hfree; simpl; auto).
  destruct line; reflexivity.
Qed.

(** Splitting a join of lines gives the lines back, except for a final
    empty line. *)
Lemma splitlines_join (ls : list str) :
  (forall line, In line ls -> break_free line) ->
  splitlines (join newline ls) = drop_final_blank ls.
Proof.
  induction ls as [| p ls IH]; intros Hfree; [reflexivity |].
  destruct ls as [| q ls].
  - apply splitlines_one_line, Hfree. simpl. auto.
  - change (join newline (p :: q :: ls)) with (p ++ LF :: join newline (q :: ls)).
    rewrite splitlines_line_newline by (apply Hfree; simpl; auto).
    rewrite IH by (intros l Hl; apply Hfree; right; exact Hl).
    reflexivity.
Qed.

(** X6 (round trip through the line splitter).  The excerpt is the join of
    a run of lines of the file, and splitting the excerpt into lines again
    gives exactly that run, less its last line when that line is empty. *)
Theorem excerpt_resplit (text : str) (start_line : Z) (class_name : str)
    (loc_limit : Z) :
  exists i j excerpt,
    (i <= j <= List.length (splitlines text))%nat /\
    extract_class_block text start_line class_name loc_limit = Ok excerpt /\
    excerpt = join newline (sublist i j (splitlines text)) /\
    splitlines excerpt = drop_final_blank (sublist i j (splitlines text)).
Proof.
  destruct (extract_is_slice text start_line class_name loc_limit)
    as (i & j & Hij & Hex).
  exists i, j, (join newline (sublist i j (splitlines text))).
  split; [exact Hij |]. split; [exact Hex |]. split; [reflexivity |].
  apply splitlines_join. intros line Hline.
  apply (splitlines_break_free text). now apply sublist_In in Hline.
Qed.

(** X7 (qualifier).  Only what follows the last dot of the type name
    counts: a dotted name and its last segment give the same excerpt. *)
Theorem qualifier_irrelevant (text : str) (start_line : Z) (qual seg : str)
    (loc_limit : Z) :
  ~ In DOT seg ->
  extract_class_block text start_line (qual ++ DOT :: seg) loc_limit
  = extract_class_block text start_line seg loc_limit.
Proof.
  intros Hno. unfold extract_class_block.
  now rewrite !simple_name_getitem, simple_name_qualified, simple_name_unqualified.
Qed.

Lemma splitlines_chars_aux (m : nat) :
  forall text, (List.length text <= m)%nat ->
  forall line c, In line (splitlines text) -> In c line -> In c text.
Proof.
  induction m as [| m IH]; intros text Hlen line c Hline Hc.
  - destruct text; [contradiction | simpl in Hlen; lia].
  - destruct text as [| x rest]; [contradiction |].
    simpl in Hlen. simpl in Hline.
    destruct (is_linebreak x).
    + destruct Hline as [<- | Hline]; [contradiction |].
      destruct rest as [| x' rest']; [contradiction |]. simpl in Hlen.
      right. destruct (N.eqb x CR && N.eqb x' LF).
      * right. apply (IH rest' ltac:(lia) line c Hline Hc).
      * apply (IH (x' :: rest') ltac:(simpl; lia) line c Hline Hc).
    + assert (Hrest : forall l, In l (splitlines rest) -> In c l -> In c rest)
        by (intros l Hl Hcl; apply (IH rest ltac:(lia) l c Hl Hcl)).
      destruct (splitlines rest) as [| l ls].
      * destruct Hline as [<- | []]. destruct Hc as [<- | []]. now left.
      * destruct Hline as [<- | Hline].
        -- destruct Hc as [<- | Hc]; [now left | right].
           apply (Hrest l); simpl; auto.
        -- right. apply (Hrest line); simpl; auto.
Qed.

Lemma join_chars (ls : list str) (c : char) :
  In c (join newline ls) -> c = LF \/ exists line, In line ls /\ In c line.
Proof.
  induction ls as [| p ls IH]; [contradiction |].
  destruct ls as [| q ls].
  - simpl. intros Hc. right. exists p. auto.
  - change (join newline (p :: q :: ls)) with (p ++ LF :: join newline (q :: ls)).
    intros Hc. apply in_app_or in Hc. destruct Hc as [Hc | [Hc | Hc]].
    + right. exists p. simpl. auto.
    + now left.
    + destruct (IH Hc) as [-> | (line & Hl & Hcl)]; [now left |].
      right. exists line. split; [right; exact Hl | exact Hcl].
Qed.

(** X8 (characters of the excerpt).  Every character of the excerpt is a
    character of the text or the newline that joins two lines, and the
    newline is the only line boundary an excerpt contains: carriage
    returns and the other terminators of the text never reach it. *)
Theorem excerpt_characters (text : str) (start_line : Z) (class_name : str)
    (loc_limit : Z) :
  exists excerpt,
    extract_class_block text start_line class_name loc_limit = Ok excerpt /\
    forall c, In c excerpt ->
      (c = LF \/ In c text) /\ (is_linebreak c = true -> c = LF).
Proof.
  destruct (extract_is_slice text start_line class_name loc_limit)
    as (i & j & Hij & Hex).
  eexists. split; [exact Hex |]. intros c Hc.
  destruct (join_chars _ _ Hc) as [-> | (line & Hline & Hcl)]; [auto |].
  apply sublist_In in Hline. split.
  - right. exact (splitlines_chars_aux (List.length text) text (le_n _)
                    line c Hline Hcl).
  - intros Hbreak. rewrite (splitlines_break_free text line Hline c Hcl) in Hbreak.
    discriminate.
Qed.

(** X9 (empty text).  On the empty text every reported line is out of
    range and the excerpt is the empty string. *)
Theorem empty_text_empty_excerpt (start_line : Z) (class_name : str)
    (loc_limit : Z) :
  terminal_state [] start_line class_name = Ok StateA /\
  extract_class_block [] start_line class_name loc_limit = Ok [].
Proof.
  assert (Hout : start_line < 1 \/ len (splitlines []) < start_line)
    by (change (len (splitlines [])) with 0; lia).
  split.
  - unfold terminal_state. cbv zeta. now rewrite range_test_out.
  - rewrite extract_out_of_range by assumption.
    change (splitlines []) with (@nil str).
    destruct (py_slice_sublist (@nil str) None (Some loc_limit))
      as (i & j & _ & ->).
    unfold sublist. now rewrite skipn_nil, firstn_nil.
Qed.

(** * Properties of [read_text] *)

(** Induction on the length of a list. *)
Lemma length_ind {A} (P : list A -> Prop) :
  (forall l, (forall l', (List.length l' < List.length l)%nat -> P l') -> P l) ->
  forall l, P l.
Proof.
  intros Hstep l.
  assert (H : forall m l', (List.length l' < m)%nat -> P l').
  { induction m as [| m IH]; intros l' Hl'; [lia |].
    apply Hstep. intros l'' Hl''. apply IH. lia. }
  apply (H (S (List.length l))). lia.
Qed.

Lemma splitlines_break (c : char) (rest : str) :
  is_linebreak c = true -> c <> CR ->
  splitlines (c :: rest) = [] :: splitlines rest.
Proof.
  intros Hc Hne. simpl. rewrite Hc.
  assert (N.eqb c CR = false) as -> by now apply N.eqb_neq.
  destruct rest; reflexivity.
Qed.

Lemma splitlines_universal_newlines (text : str) :
  splitlines (universal_newlines text) = splitlines text.
Proof.
  induction text as [text IH] using length_ind.
  destruct text as [| c rest]; [reflexivity |].
  cbn [universal_newlines].
  destruct (N.eqb_spec c CR) as [-> | Hne].
  - rewrite splitlines_break by (reflexivity || discriminate).
    destruct rest as [| c' rest']; [reflexivity |].
    cbn [splitlines]. change (is_linebreak CR) with true. cbv iota.
    rewrite N.eqb_refl. cbn [andb].
    destruct (N.eqb c' LF); rewrite IH by (simpl; lia); reflexivity.
  - destruct (is_linebreak c) eqn:Hc.
    + rewrite !splitlines_break by assumption.
      now rewrite IH by (simpl; lia).
    + cbn [splitlines]. rewrite Hc. now rewrite IH by (simpl; lia).
Qed.

Lemma universal_newlines_no_CR (text : str) : ~ In CR (universal_newlines text).
Proof.
  induction text as [text IH] using length_ind.
  destruct text as [| c rest]; [intros [] |].
  cbn [universal_newlines].
  destruct (N.eqb_spec c CR) as [-> | Hne].
  - intros [H | H]; [discriminate H |].
    destruct rest as [| c' rest']; [contradiction |].
    destruct (N.eqb c' LF); revert H; apply IH; simpl; lia.
  - intros [H | H]; [congruence |]. revert H. apply IH. simpl. lia.
Qed.

Lemma utf8_decode_ascii (bs : list N) :
  (forall b, In b bs -> (b < 128)%N) -> utf8_decode bs = Some bs.
Proof.
  induction bs as [| b bs IH]; intros Hall; [reflexivity |].
  cbn [utf8_decode].
  destruct (N.ltb_spec b 128) as [_ | Hge]; [| specialize (Hall b (or_introl eq_refl)); lia].
  now rewrite IH by (intros x Hx; apply Hall; right; exact Hx).
Qed.

(** The excerpt is a function of the lines of the text only. *)
Lemma extract_same_lines (text text' : str) (start_line : Z) (class_name : str)
    (loc_limit : Z) :
  splitlines text = splitlines text' ->
  extract_class_block text start_line class_name loc_limit
  = extract_class_block text' start_line class_name loc_limit.
Proof. intros H. unfold extract_class_block. now rewrite H. Qed.

(** X10 (newline convention).  The translation of CR LF and CR to LF that
    reading a file performs leaves the lines of the text and therefore every
    excerpt unchanged: a file with Windows or old Mac line ends gives the
    same excerpt as its Unix form. *)
Theorem newline_convention_irrelevant (text : str) (start_line : Z)
    (class_name : str) (loc_limit : Z) :
  splitlines (universal_newlines text) = splitlines text /\
  extract_class_block (universal_newlines text) start_line class_name loc_limit
  = extract_class_block text start_line class_name loc_limit.
Proof.
  split; [apply splitlines_universal_newlines |].
  apply extract_same_lines, splitlines_universal_newlines.
Qed.

(** X11 (ASCII files).  On a file whose bytes are all below 128 the UTF-8
    decoding succeeds and equals the Latin-1 decoding, so [read_text] gives
    the same text by either codec: the bytes as code points, with the
    newlines translated. *)
Theorem read_text_ascii (content : list Byte.byte) :
  (forall b, In b content -> (Byte.to_N b < 128)%N) ->
  utf8_decode (List.map Byte.to_N content) = Some (latin1_decode content) /\
  read_text content = universal_newlines (latin1_decode content).
Proof.
  intros Hascii.
  assert (H : utf8_decode (List.map Byte.to_N content) = Some (latin1_decode content)).
  { apply utf8_decode_ascii. intros b Hb. apply in_map_iff in Hb.
    destruct Hb as (x & <- & Hx). now apply Hascii. }
  split; [exact H |]. unfold read_text. now rewrite H.
Qed.

Lemma universal_newlines_chars (text : str) (c : char) :
  In c (universal_newlines text) -> c = LF \/ In c text.
Proof.
  induction text as [text IH] using length_ind.
  destruct text as [| x rest]; [intros [] |].
  cbn [universal_newlines].
  destruct (N.eqb_spec x CR) as [-> | Hne].
  - intros [H | H]; [now left |].
    destruct rest as [| x' rest']; [contradiction |].
    destruct (N.eqb x' LF); apply IH in H; simpl; try lia;
      destruct H as [H | H]; auto; right; right; simpl; auto.
  - intros [H | H]; [right; now left |].
    apply IH in H; [| simpl; lia]. destruct H as [H | H]; auto. right. now right.
Qed.

(** X12 (no carriage return).  The text that [read_text] gives never holds
    a carriage return; and when the bytes are not valid UTF-8, every one of
    its characters is below 256, being a byte of the file. *)
Theorem read_text_no_carriage_return (content : list Byte.byte) :
  ~ In CR (read_text content) /\
  (utf8_decode (List.map Byte.to_N content) = None ->
   forall c, In c (read_text content) -> (c < 256)%N).
Proof.
  unfold read_text, latin1_decode.
  destruct (utf8_decode (List.map Byte.to_N content)) as [s |].
  - split; [apply universal_newlines_no_CR | discriminate].
  - split; [apply universal_newlines_no_CR |]. intros _ c Hc.
    apply universal_newlines_chars in Hc. destruct Hc as [-> | Hc]; [reflexivity |].
    apply in_map_iff in Hc. destruct Hc as (x & <- & _).
    pose proof (Byte.to_N_bounded x). lia.
Qed.

(** * Properties of the loop of [main] *)

Lemma build_case_total (r : row) (java_path code : str) (start_line loc_limit : Z) :
  exists excerpt obj,
    extract_class_block code start_line (r_class_name r) loc_limit = Ok excerpt /\
    build_case r java_path code start_line loc_limit = Ok obj /\
    code_excerpt obj = excerpt /\ file_path obj = java_path /\
    case_id obj = r_case_id r /\
    excerpt_strategy obj = py "line_based_class_block".
Proof.
  destruct (extract_is_slice code start_line (r_class_name r) loc_limit)
    as (i & j & _ & Hex).
  unfold build_case. rewrite Hex. cbn [bind].
  eexists. eexists. split; [reflexivity |]. split; [reflexivity |].
  repeat split.
Qed.


Lemma process_row_aborted (r : smell_row) (loc_limit : Z) (e : main_exn) :
  process_row r loc_limit = Aborted e <->
  e = ValueError /\
  exists s, line_no r = Some (Str s) /\ isdigit s = true /\
            int_of_digits s = None.
Proof.
  unfold process_row. split.
  - destruct (line_no r) as [[| s] |]; try discriminate.
    cbn [py_str]. destruct (isdigit s) eqn:Hd; [| discriminate]. cbn [negb].
    destruct (int_of_digits s) as [start_line |] eqn:Hi.
    + destruct (find_java_file _ _) as [java_path |]; [| discriminate].
      destruct (path_exists java_path); [| discriminate]. cbn [negb].
      destruct (build_case_total (columns r) java_path
                  (read_text (file_content java_path)) start_line loc_limit)
        as (excerpt & obj & _ & Hb & _).
      rewrite Hb. discriminate.
    + intros [= <-]. split; [reflexivity |]. now exists s.
  - intros (-> & s & -> & Hd & Hi). cbn [py_str]. now rewrite Hd, Hi.
Qed.


Lemma records_of_app (rows1 rows2 : list smell_row) (loc_limit : Z) :
  records_of (rows1 ++ rows2) loc_limit
  = records_of rows1 loc_limit ++ records_of rows2 loc_limit.
Proof. unfold records_of. apply flat_map_app. Qed.

Lemma main_loop_no_abort (rows : list smell_row) (loc_limit : Z) :
  (forall r e, In r rows -> process_row r loc_limit <> Aborted e) ->
  forall written n_written,
  main_loop rows loc_limit written n_written
  = Finished (written ++ records_of rows loc_limit)
             (n_written + len (records_of rows loc_limit)).
Proof.
  induction rows as [| r rows IH]; intros Hok written n_written.
  - simpl. unfold records_of, len. simpl. now rewrite app_nil_r, Z.add_0_r.
  - cbn [main_loop]. change (r :: rows) with ([r] ++ rows).
    rewrite records_of_app. unfold records_of at 1 3. cbn [flat_map].
    rewrite app_nil_r.
    assert (Hrows : forall r' e, In r' rows -> process_row r' loc_limit <> Aborted e)
      by (intros r' e Hr'; apply Hok; right; exact Hr').
    destruct (process_row r loc_limit) as [| obj | e] eqn:Hr.
    + now rewrite IH.
    + rewrite IH by assumption. rewrite <- app_assoc, len_app.
      f_equal. unfold len. simpl List.length. lia.
    + exfalso. apply (Hok r e); [now left | exact Hr].
Qed.

Lemma main_loop_abort (before : list smell_row) (r : smell_row)
    (after : list smell_row) (loc_limit : Z) (e : main_exn) :
  (forall r' e', In r' before -> process_row r' loc_limit <> Aborted e') ->
  process_row r loc_limit = Aborted e ->
  forall written n_written,
  main_loop (before ++ r :: after) loc_limit written n_written
  = Crashed e (written ++ records_of before loc_limit).
Proof.
  intros Hok Hr. induction before as [| r0 before IH]; intros written n_written.
  - simpl. rewrite Hr. unfold records_of. simpl. now rewrite app_nil_r.
  - cbn [app main_loop]. change (r0 :: before) with ([r0] ++ before).
    rewrite records_of_app. unfold records_of at 1. cbn [flat_map].
    rewrite app_nil_r.
    assert (Hb : forall r' e', In r' before -> process_row r' loc_limit <> Aborted e')
      by (intros r' e' Hr'; apply Hok; right; exact Hr').
    destruct (process_row r0 loc_limit) as [| obj | e0] eqn:Hr0.
    + now rewrite IH.
    + rewrite IH by assumption. now rewrite <- app_assoc.
    + exfalso. apply (Hok r0 e0); [now left | exact Hr0].
Qed.

Lemma main_loop_finished_no_abort (rows : list smell_row) (loc_limit : Z) :
  forall written n_written out n,
  main_loop rows loc_limit written n_written = Finished out n ->
  forall r e, In r rows -> process_row r loc_limit <> Aborted e.
Proof.
  induction rows as [| r0 rows IH]; intros written n_written out n Hrun r e Hin;
    [contradiction |].
  cbn [main_loop] in Hrun.
  destruct (process_row r0 loc_limit) as [| obj | e0] eqn:Hr0; try discriminate;
    (destruct Hin as [<- | Hin]; [congruence | exact (IH _ _ _ _ Hrun r e Hin)]).
Qed.

Lemma records_of_length (rows : list smell_row) (loc_limit : Z) :
  (List.length (records_of rows loc_limit) <= List.length rows)%nat.
Proof.
  induction rows as [| r rows IH]; [simpl; lia |].
  change (r :: rows) with ([r] ++ rows). rewrite records_of_app, length_app.
  unfold records_of at 1. cbn [flat_map]. rewrite app_nil_r.
  destruct (process_row r loc_limit); simpl List.length in *; lia.
Qed.



Lemma int_digits_ascii (s : str) :
  (forall c, In c s -> ascii_digit c = true) ->
  forall acc,
  int_digits acc s
  = Some (fold_left (fun a c => 10 * a + Z.of_N (c - 48)) s acc).
Proof.
  induction s as [| c s IH]; intros Hall acc; [reflexivity |].
  cbn [int_digits fold_left]. unfold decimal_value.
  pose proof (Hall c (or_introl eq_refl)) as Hc. rewrite Hc.
  assert (Hlt : (c <? 128)%N = true).
  { unfold ascii_digit in Hc. apply andb_true_iff in Hc. destruct Hc as [_ Hc].
    apply N.leb_le in Hc. apply N.ltb_lt. lia. }
  rewrite Hlt. apply IH. intros x Hx. apply Hall. now right.
Qed.

Lemma fold_digits_nonneg (s : str) :
  forall acc, 0 <= acc ->
  0 <= fold_left (fun a c => 10 * a + Z.of_N (c - 48)) s acc.
Proof.
  induction s as [| c s IH]; intros acc Hacc; [exact Hacc |].
  cbn [fold_left]. apply IH. lia.
Qed.


(** * Extracting from an excerpt *)

Lemma py_getitem_skipn {A} (l : list A) (h : nat) (a : Z) :
  0 <= a -> py_getitem (skipn h l) a = py_getitem l (a + Z.of_nat h).
Proof.
  intros Ha. unfold py_getitem.
  destruct (Z.ltb_spec a 0); [lia |].
  destruct (Z.ltb_spec (a + Z.of_nat h) 0); [lia |].
  destruct (Z.ltb_spec a 0); [lia |].
  destruct (Z.ltb_spec (a + Z.of_nat h) 0); [lia |].
  rewrite nth_error_skipn.
  now replace (Z.to_nat (a + Z.of_nat h)) with (h + Z.to_nat a)%nat by lia.
Qed.

(** Dropping the lines above the header only shifts the answer of the
    brace matcher. *)
Lemma match_braces_skipn (lines : list str) (h : nat) :
  (h <= List.length lines)%nat ->
  forall a d o, 0 <= a ->
  match_braces (skipn h lines) (py_range a (len (skipn h lines))) d o
  = match match_braces lines (py_range (a + Z.of_nat h) (len lines)) d o with
    | Ok (Some e) => Ok (Some (e - Z.of_nat h))
    | other => other
    end.
Proof.
  intros Hh.
  assert (Hlen : len (skipn h lines) = len lines - Z.of_nat h)
    by (unfold len; rewrite length_skipn; lia).
  apply (@py_range_ind (len (skipn h lines))
           (fun a => forall d o, 0 <= a -> _)); intros a Ha.
  - intros d o _. now rewrite !py_range_nil by lia.
  - intros IH d o H0. rewrite (py_range_cons a), (py_range_cons (a + Z.of_nat h)) by lia.
    cbn [match_braces]. rewrite py_getitem_skipn by assumption.
    destruct (py_getitem lines (a + Z.of_nat h)) as [line | ex]; [| reflexivity].
    cbn [bind]. destruct (closed (scan_line line d o)).
    + f_equal. f_equal. lia.
    + rewrite IH by lia. now replace (a + 1 + Z.of_nat h) with (a + Z.of_nat h + 1) by lia.
Qed.

Lemma firstn_snoc_nth {A} (k : nat) (l : list A) (x : A) :
  nth_error l k = Some x -> firstn (S k) l = firstn k l ++ [x].
Proof.
  revert l. induction k as [| k IH]; intros [| y l] Hnth; simpl in Hnth;
    try discriminate.
  - now injection Hnth as ->.
  - simpl. f_equal. now apply IH.
Qed.

Lemma drop_final_blank_snoc (init : list str) (l : str) :
  l <> [] -> drop_final_blank (init ++ [l]) = init ++ [l].
Proof.
  intros Hl. induction init as [| x init IH].
  - simpl. destruct l; [congruence | reflexivity].
  - change ((x :: init) ++ [l]) with (x :: (init ++ [l])).
    cbn [drop_final_blank]. rewrite IH.
    destruct (init ++ [l]) eqn:E; [| reflexivity].
    apply app_eq_nil in E. destruct E as [_ E]. discriminate.
Qed.

(** X18 (idempotence).  When a header and its closing brace are found and
    the block fits the limit, reading the excerpt itself as a file, with
    line 1 as the reported line, gives back the same excerpt: the block is
    a fixed point of the extractor. *)
Theorem block_extraction_idempotent (text : str) (start_line : Z)
    (class_name : str) (loc_limit h e : Z) :
  1 <= start_line <= len (splitlines text) ->
  find_header (simple_name class_name) (splitlines text) (start_line - 1)
  = Ok (Some h) ->
  match_braces (splitlines text) (py_range h (len (splitlines text))) 0 false
  = Ok (Some e) ->
  e - h < loc_limit ->
  exists excerpt,
    extract_class_block text start_line class_name loc_limit = Ok excerpt /\
    splitlines excerpt
    = sublist (Z.to_nat h) (Z.to_nat e + 1) (splitlines text) /\
    extract_class_block excerpt 1 class_name loc_limit = Ok excerpt.
Proof.
  intros Hin Hfind Hbr Hlim.
  pose proof (find_header_bounds _ _ _ _ Hfind) as [Hh Hmatch].
  pose proof (match_braces_end_bounds _ _ _ _ _ (proj1 Hh) Hbr) as He.
  destruct (match_braces_prefix_only _ _ _ _ _ (proj1 Hh) Hbr)
    as (pre & post & Hline & Hafter).
  specialize (Hafter post []).
  set (lines := splitlines text) in *.
  set (run := sublist (Z.to_nat h) (Z.to_nat e + 1) lines).
  assert (Hfirst : firstn (Z.to_nat e) lines ++ [pre ++ RBRACE :: post]
                   = firstn (Z.to_nat e + 1) lines)
    by (rewrite Nat.add_1_r; symmetry; now apply firstn_snoc_nth).
  rewrite Hfirst in Hafter.
  assert (Hrun : run = skipn (Z.to_nat h) (firstn (Z.to_nat e + 1) lines))
    by (unfold run, sublist; now rewrite skipn_firstn_comm).
  assert (Hrunlen : len run = e - h + 1)
    by (unfold run, len; rewrite sublist_length; unfold len in He; lia).
  (* the excerpt and its lines *)
  assert (Hex : extract_class_block text start_line class_name loc_limit
                = Ok (join newline run)).
  { rewrite (extract_block _ _ _ _ h e) by assumption. fold lines.
    rewrite block_truncation by lia. fold run.
    rewrite firstn_all2 by (unfold len in Hrunlen; lia). reflexivity. }
  assert (Hsnoc : run = sublist (Z.to_nat h) (Z.to_nat e) lines
                        ++ [pre ++ RBRACE :: post]).
  { unfold run, sublist.
    replace (Z.to_nat e + 1 - Z.to_nat h)%nat with (S (Z.to_nat e - Z.to_nat h)) by lia.
    apply firstn_snoc_nth. rewrite nth_error_skipn.
    now replace (Z.to_nat h + (Z.to_nat e - Z.to_nat h))%nat with (Z.to_nat e) by lia. }
  assert (Hsplit : splitlines (join newline run) = run).
  { rewrite splitlines_join.
    - rewrite Hsnoc. apply drop_final_blank_snoc. now destruct pre.
    - intros line Hl. apply (splitlines_break_free text).
      unfold run in Hl. now apply sublist_In in Hl. }
  exists (join newline run). split; [exact Hex |]. split; [exact Hsplit |].
  (* the header is line 1 of the excerpt *)
  assert (Hhead : nth_error run 0 = nth_error lines (Z.to_nat h)).
  { unfold run. rewrite nth_error_sublist by lia. f_equal. lia. }
  assert (Hfind' : find_header (simple_name class_name) run (1 - 1) = Ok (Some 0)).
  { rewrite find_header_find.
    assert (Hf : find (line_matches (simple_name class_name) run)
                   (py_range (window_lo (1 - 1)) (window_hi (len run) (1 - 1)))
                 = Some 0).
    { apply find_py_range_first. unfold first_in, window_lo, window_hi.
      split; [lia |]. split; [| intros j Hj; lia].
      unfold line_matches in Hmatch |- *.
      apply andb_true_iff in Hmatch. destruct Hmatch as [_ Hm].
      change (Z.to_nat 0) with 0%nat. rewrite Hhead. exact Hm. }
    now rewrite Hf. }
  (* and the braces close on its last line *)
  assert (Hbr' : match_braces run (py_range 0 (len run)) 0 false
                 = Ok (Some (e - h))).
  { rewrite Hrun.
    rewrite (match_braces_skipn (firstn (Z.to_nat e + 1) lines) (Z.to_nat h))
      by first [rewrite length_firstn; unfold len in He; lia | lia].
    replace (0 + Z.of_nat (Z.to_nat h)) with h by lia.
    rewrite Hafter. f_equal. f_equal. lia. }
  rewrite (extract_block _ _ _ _ 0 (e - h));
    rewrite ?Hsplit; try assumption; [| lia].
  rewrite block_truncation by lia.
  change (Z.to_nat 0) with 0%nat.
  rewrite sublist_prefix.
  rewrite (@firstn_all2 _ (Z.to_nat (e - h) + 1) run)
    by (unfold len in Hrunlen; lia).
  rewrite firstn_all2 by (unfold len in Hrunlen; lia). reflexivity.
Qed.

End Extractor.

(** * The claims on concrete inputs *)

Lemma exact_match_block_witness :
  (1 <= 12 <= len (splitlines file20) /\
   find_header latin1_alnum latin1_space (simple_name (py "Foo"))
     (splitlines file20) (12 - 1) = Ok (Some 9) /\
   match_braces (splitlines file20) (py_range 9 (len (splitlines file20))) 0 false
   = Ok (Some 17) /\
   0 <= 400) /\
  extract_class_block latin1_alnum latin1_space file20 12 (py "Foo") 400
  = Ok (join newline
          (firstn (Z.to_nat 400)
             (sublist (Z.to_nat 9) (Z.to_nat 17 + 1) (splitlines file20)))).
Proof.
  assert (H1 : 1 <= 12 <= len (splitlines file20)) by by_computation.
  assert (H2 : find_header latin1_alnum latin1_space (simple_name (py "Foo"))
                 (splitlines file20) (12 - 1) = Ok (Some 9)) by by_computation.
  assert (H3 : match_braces (splitlines file20)
                 (py_range 9 (len (splitlines file20))) 0 false = Ok (Some 17))
    by by_computation.
  assert (H4 : 0 <= 400) by by_computation.
  split; [exact (conj H1 (conj H2 (conj H3 H4))) |].
  exact (proj1 (exact_match_block latin1_alnum latin1_space)
           file20 12 (py "Foo") 400 9 17 H1 H2 H3 H4).
Defined.

Lemma brace_matcher_semantics_witness :
  0 <= 0 /\
  match_braces literal_brace_lines (py_range 0 (len literal_brace_lines)) 0 false
  = Ok (spec_brace_end literal_brace_lines 0).
Proof.
  assert (H : 0 <= 0) by by_computation.
  split; [exact H |].
  exact (proj1 (proj1 brace_matcher_semantics literal_brace_lines 0 H)).
Defined.

Lemma header_search_order_witness :
  (0 <= 0 < len (splitlines file60) /\
   first_in (line_matches latin1_alnum latin1_space (py "Bar") (splitlines file60))
     (Z.max 0 (51 - 5)) (Z.min (len (splitlines file60)) (51 + 10)) 49) /\
  find_header latin1_alnum latin1_space (py "Bar") (splitlines file60) 51
  = Ok (Some 49).
Proof.
  assert (H1 : 0 <= 51 < len (splitlines file60)) by by_computation.
  assert (H2 : first_in
                 (line_matches latin1_alnum latin1_space (py "Bar") (splitlines file60))
                 (Z.max 0 (51 - 5)) (Z.min (len (splitlines file60)) (51 + 10)) 49).
  { split; [by_computation |]. split; [by_computation |].
    intros j Hj. change (Z.max 0 (51 - 5)) with 46 in Hj.
    assert (Hc : j = 46 \/ j = 47 \/ j = 48) by lia.
    destruct Hc as [-> | [-> | ->]]; by_computation. }
  split; [split; [by_computation | exact H2] |].
  exact (proj1 (proj1 (header_search_order latin1_alnum latin1_space)
                  (py "Bar") (splitlines file60) 51 H1) 49 H2).
Defined.

Lemma header_pattern_simple_name_witness :
  ~ In DOT (py "Inner") /\
  simple_name (py "Outer" ++ DOT :: py "Inner") = py "Inner".
Proof.
  assert (H : ~ In DOT (py "Inner")).
  { intros Hin. vm_compute in Hin.
    repeat (destruct Hin as [Hin | Hin]; [discriminate Hin |]). exact Hin. }
  split; [exact H |].
  exact (proj1 (proj2 (proj2 (header_pattern_simple_name latin1_alnum latin1_space)))
           (py "Outer") (py "Inner") H).
Defined.

Lemma out_of_range_fallback_witness :
  (9999 < 1 \/ len (splitlines file20) < 9999) /\
  extract_class_block latin1_alnum latin1_space file20 9999 (py "Foo") 400
  = Ok (join newline (py_slice (splitlines file20) (Some 0) (Some 400))).
Proof.
  assert (H : 9999 < 1 \/ len (splitlines file20) < 9999)
    by (right; by_computation).
  split; [exact H |].
  exact (proj1 (out_of_range_fallback latin1_alnum latin1_space
                  file20 9999 (py "Foo") 400 H)).
Defined.

Lemma header_not_found_fallback_witness :
  (1 <= 2 <= len (splitlines fields3) /\
   forall k line, nth_error (splitlines fields3) k = Some line ->
     header_pat_search latin1_alnum latin1_space (simple_name (py "p.Foo")) line
     = false) /\
  extract_class_block latin1_alnum latin1_space fields3 2 (py "p.Foo") 400
  = Ok (join newline
          (py_slice (splitlines fields3) (Some (Z.max 0 (2 - 1 - 5)))
             (Some (Z.max 0 (2 - 1 - 5) + 400)))).
Proof.
  assert (H1 : 1 <= 2 <= len (splitlines fields3)) by by_computation.
  assert (H2 : forall k line, nth_error (splitlines fields3) k = Some line ->
     header_pat_search latin1_alnum latin1_space (simple_name (py "p.Foo")) line
     = false).
  { intros k line Hk.
    do 3 (destruct k as [| k]; [injection Hk as <-; by_computation |]).
    destruct k; discriminate Hk. }
  split; [exact (conj H1 H2) |].
  exact (header_not_found_fallback latin1_alnum latin1_space
           fields3 2 (py "p.Foo") 400 H1 H2).
Defined.

Lemma excerpt_bounded_witness :
  1 <= 3 /\
  exists i j,
    (i <= j <= List.length (splitlines file20))%nat /\
    extract_class_block latin1_alnum latin1_space file20 12 (py "Foo") 3
    = Ok (join newline (sublist i j (splitlines file20))) /\
    len (sublist i j (splitlines file20)) <= 3 /\
    line_count (join newline (sublist i j (splitlines file20))) <= 3 /\
    (file20 <> [] -> 1 <= len (sublist i j (splitlines file20))) /\
    (file20 <> [] ->
     (join newline (sublist i j (splitlines file20)) = [] <->
      sublist i j (splitlines file20) = [[]])).
Proof.
  assert (H : 1 <= 3) by by_computation.
  split; [exact H |].
  exact (excerpt_bounded latin1_alnum latin1_space file20 12 (py "Foo") 3 H).
Defined.

Lemma excerpt_contiguous_slice_witness :
  exists i j,
    (i <= j <= List.length (splitlines file20))%nat /\
    extract_class_block latin1_alnum latin1_space file20 12 (py "Foo") 400
    = Ok (join newline (sublist i j (splitlines file20))) /\
    List.length (sublist i j (splitlines file20)) = (j - i)%nat /\
    forall k, (k < j - i)%nat ->
              nth_error (sublist i j (splitlines file20)) k
              = nth_error (splitlines file20) (i + k).
Proof.
  exact (excerpt_contiguous_slice latin1_alnum latin1_space file20 12 (py "Foo") 400).
Defined.

(** C7 as stated fails: a text that is not empty can give the empty
    excerpt, whose line count is 0. *)
Lemma nonempty_excerpt_counterexample :
  (blank1 <> [] /\ 1 <= 400 /\
   extract_class_block latin1_alnum latin1_space blank1 1 (py "Foo") 400 = Ok [] /\
   line_count [] = 0 /\ ~ 1 <= line_count [])
  /\
  (blank_first <> [] /\ 1 <= 1 /\
   extract_class_block latin1_alnum latin1_space blank_first 9999 (py "Foo") 1
   = Ok []).
Proof.
  repeat split; try discriminate; try reflexivity.
  intros H. vm_compute in H. apply H. reflexivity.
Qed.

(** C8 as stated fails: an excerpt of state D and one of state A are
    written with the same tag. *)
Lemma strategy_tag_counterexample :
  terminal_state latin1_alnum latin1_space file20 12 (py "Foo") = Ok StateD /\
  terminal_state latin1_alnum latin1_space file20 9999 (py "Foo") = Ok StateA /\
  exists c1 c2 : case unit,
    build_case latin1_alnum latin1_space (fun _ => None) tt
      sample_row (py "src/p/Foo.java") file20 12 400 = Ok c1 /\
    build_case latin1_alnum latin1_space (fun _ => None) tt
      sample_row (py "src/p/Foo.java") file20 9999 400 = Ok c2 /\
    code_excerpt c1 <> code_excerpt c2 /\
    excerpt_strategy c1 = excerpt_strategy c2.
Proof.
  split; [by_computation |]. split; [by_computation |].
  eexists. eexists. split; [vm_compute; reflexivity |].
  split; [vm_compute; reflexivity |].
  split; [discriminate | reflexivity].
Qed.

(** * The further properties on concrete inputs *)

Abbreviation process_row_foo :=
  (process_row latin1_alnum latin1_space (fun _ : str => @None unit) tt
     latin1_digit latin1_decimal 4300 one_file_tree always_exists foo_content).

Abbreviation main_foo :=
  (main latin1_alnum latin1_space (fun _ : str => @None unit) tt
     latin1_digit latin1_decimal 4300 one_file_tree always_exists foo_content).

Abbreviation records_of_foo :=
  (records_of latin1_alnum latin1_space (fun _ : str => @None unit) tt
     latin1_digit latin1_decimal 4300 one_file_tree always_exists foo_content).

Lemma unterminated_block_fallback_witness :
  (1 <= 1 <= len (splitlines unterminated) /\
   find_header latin1_alnum latin1_space (simple_name (py "Foo"))
     (splitlines unterminated) (1 - 1) = Ok (Some 0) /\
   match_braces (splitlines unterminated)
     (py_range 0 (len (splitlines unterminated))) 0 false = Ok None) /\
  extract_class_block latin1_alnum latin1_space unterminated 1 (py "Foo") 400
  = Ok (join newline
          (py_slice (splitlines unterminated) (Some 0) (Some (0 + 400)))).
Proof.
  assert (H1 : 1 <= 1 <= len (splitlines unterminated)) by by_computation.
  assert (H2 : find_header latin1_alnum latin1_space (simple_name (py "Foo"))
                 (splitlines unterminated) (1 - 1) = Ok (Some 0))
    by by_computation.
  assert (H3 : match_braces (splitlines unterminated)
                 (py_range 0 (len (splitlines unterminated))) 0 false = Ok None)
    by by_computation.
  split; [exact (conj H1 (conj H2 H3)) |].
  exact (proj1 (unterminated_block_fallback latin1_alnum latin1_space
                  unterminated 1 (py "Foo") 400 0 H1 H2 H3)).
Defined.

Lemma header_line_first_witness :
  (1 <= 400 /\ 1 <= 12 <= len (splitlines file20) /\
   find_header latin1_alnum latin1_space (simple_name (py "Foo"))
     (splitlines file20) (12 - 1) = Ok (Some 9)) /\
  exists line rest,
    nth_error (splitlines file20) (Z.to_nat 9) = Some line /\
    header_pat_search latin1_alnum latin1_space (simple_name (py "Foo")) line
    = true /\
    extract_class_block latin1_alnum latin1_space file20 12 (py "Foo") 400
    = Ok (join newline (line :: rest)).
Proof.
  assert (H1 : 1 <= 400) by by_computation.
  assert (H2 : 1 <= 12 <= len (splitlines file20)) by by_computation.
  assert (H3 : find_header latin1_alnum latin1_space (simple_name (py "Foo"))
                 (splitlines file20) (12 - 1) = Ok (Some 9)) by by_computation.
  split; [exact (conj H1 (conj H2 H3)) |].
  exact (header_line_first latin1_alnum latin1_space
           file20 12 (py "Foo") 400 9 H1 H2 H3).
Defined.

Lemma limit_only_truncates_witness :
  exists run,
    (exists i j, (i <= j <= List.length (splitlines file20))%nat /\
                 run = sublist i j (splitlines file20)) /\
    forall loc_limit, 0 <= loc_limit ->
      extract_class_block latin1_alnum latin1_space file20 12 (py "Foo") loc_limit
      = Ok (join newline (firstn (Z.to_nat loc_limit) run)).
Proof.
  exact (limit_only_truncates latin1_alnum latin1_space file20 12 (py "Foo")).
Defined.

Lemma block_braces_balanced_witness :
  (0 <= 0 /\
   match_braces literal_brace_lines (py_range 0 (len literal_brace_lines)) 0 false
   = Ok (Some 1)) /\
  exists k,
    nth_error (chars_from literal_brace_lines 0) k = Some (1, RBRACE) /\
    let seen := List.map snd (firstn (S k) (chars_from literal_brace_lines 0)) in
    count_occ N.eq_dec seen LBRACE = count_occ N.eq_dec seen RBRACE /\
    (1 <= count_occ N.eq_dec seen LBRACE)%nat /\
    forall j, (j < k)%nat -> closes_at (chars_from literal_brace_lines 0) j = false.
Proof.
  assert (H1 : 0 <= 0) by by_computation.
  assert (H2 : match_braces literal_brace_lines
                 (py_range 0 (len literal_brace_lines)) 0 false = Ok (Some 1))
    by by_computation.
  split; [exact (conj H1 H2) |].
  exact (block_braces_balanced literal_brace_lines 0 1 H1 H2).
Defined.

Lemma qualifier_irrelevant_witness :
  ~ In DOT (py "Inner") /\
  extract_class_block latin1_alnum latin1_space file20 12
    (py "Outer" ++ DOT :: py "Inner") 400
  = extract_class_block latin1_alnum latin1_space file20 12 (py "Inner") 400.
Proof.
  assert (H : ~ In DOT (py "Inner")).
  { intros Hin. vm_compute in Hin.
    repeat (destruct Hin as [Hin | Hin]; [discriminate Hin |]). exact Hin. }
  split; [exact H |].
  exact (qualifier_irrelevant latin1_alnum latin1_space
           file20 12 (py "Outer") (py "Inner") 400 H).
Defined.

Lemma excerpt_characters_witness :
  exists excerpt,
    extract_class_block latin1_alnum latin1_space file20 12 (py "Foo") 400
    = Ok excerpt /\
    forall c, In c excerpt ->
      (c = LF \/ In c file20) /\ (is_linebreak c = true -> c = LF).
Proof.
  exact (excerpt_characters latin1_alnum latin1_space file20 12 (py "Foo") 400).
Defined.

Lemma read_text_ascii_witness :
  (forall b, In b foo_bytes -> (Byte.to_N b < 128)%N) /\
  utf8_decode (List.map Byte.to_N foo_bytes) = Some (latin1_decode foo_bytes) /\
  read_text foo_bytes = universal_newlines (latin1_decode foo_bytes).
Proof.
  assert (H : forall b, In b foo_bytes -> (Byte.to_N b < 128)%N).
  { assert (Hall : forallb (fun b => (Byte.to_N b <? 128)%N) foo_bytes = true)
      by (vm_compute; reflexivity).
    intros b Hb. apply N.ltb_lt. exact (proj1 (forallb_forall _ _) Hall b Hb). }
  split; [exact H |]. exact (read_text_ascii foo_bytes H).
Defined.

Lemma read_text_no_carriage_return_witness :
  ~ In CR (read_text [Byte.x61; Byte.x0d; Byte.x0a; Byte.xe9; Byte.x0d]) /\
  (utf8_decode (List.map Byte.to_N [Byte.x61; Byte.x0d; Byte.x0a; Byte.xe9; Byte.x0d])
   = None ->
   forall c, In c (read_text [Byte.x61; Byte.x0d; Byte.x0a; Byte.xe9; Byte.x0d]) ->
             (c < 256)%N).
Proof.
  exact (read_text_no_carriage_return
           [Byte.x61; Byte.x0d; Byte.x0a; Byte.xe9; Byte.x0d]).
Defined.






Lemma block_extraction_idempotent_witness :
  (1 <= 12 <= len (splitlines file20) /\
   find_header latin1_alnum latin1_space (simple_name (py "Foo"))
     (splitlines file20) (12 - 1) = Ok (Some 9) /\
   match_braces (splitlines file20) (py_range 9 (len (splitlines file20))) 0 false
   = Ok (Some 17) /\
   17 - 9 < 400) /\
  exists excerpt,
    extract_class_block latin1_alnum latin1_space file20 12 (py "Foo") 400
    = Ok excerpt /\
    splitlines excerpt = sublist (Z.to_nat 9) (Z.to_nat 17 + 1) (splitlines file20) /\
    extract_class_block latin1_alnum latin1_space excerpt 1 (py "Foo") 400
    = Ok excerpt.
Proof.
  assert (H1 : 1 <= 12 <= len (splitlines file20)) by by_computation.
  assert (H2 : find_header latin1_alnum latin1_space (simple_name (py "Foo"))
                 (splitlines file20) (12 - 1) = Ok (Some 9)) by by_computation.
  assert (H3 : match_braces (splitlines file20)
                 (py_range 9 (len (splitlines file20))) 0 false = Ok (Some 17))
    by by_computation.
  assert (H4 : 17 - 9 < 400) by by_computation.
  split; [exact (conj H1 (conj H2 (conj H3 H4))) |].
  exact (block_extraction_idempotent latin1_alnum latin1_space
           file20 12 (py "Foo") 400 9 17 H1 H2 H3 H4).
Defined.
